(** * Gibberish detector: a shallow embedding of the statistical engine

    The development follows the module of the repository that exports the
    detector factory (sanitizeText, train, scoreLines, assignScore,
    testGibberish, isValidMatrix, isValidModel, testConfig and the object the
    factory returns), together with the earlier revision of assignScore that
    is kept in index.js.

    Modelling choices, fixed once for the whole file:
    - a JavaScript number is an IEEE 754 binary64 value: Rocq's primitive
      [float], whose operations are the ones the source's [+], [/] and [<=]
      denote;
    - a JavaScript string is a [string] of 8-bit characters: the strings whose
      UTF-16 code units are all below U+0100.  On that alphabet Unicode
      normalisation is a finite table, written out below;
    - loop counters that only count characters of a string (pairCount, the
      y field that train increments) are natural numbers; they are bounded by
      the length of a string, far below 2^53, so the double that holds them
      in the source is exact;
    - a thrown exception is a [Throw] result. *)

From Stdlib Require Import Floats ZArith NArith Ascii String Sorted.
From stdpp Require Import base option list gmap strings pretty.

Local Open Scope string_scope.
Local Open Scope bool_scope.

(** ** Results of calls that may throw *)

Inductive exn : Type :=
| Error (msg : string)
| TypeError (msg : string)
| ReferenceError (msg : string).

Inductive result (A : Type) : Type :=
| Ok (a : A)
| Throw (e : exn).
Arguments Ok {A} a.
Arguments Throw {A} e.

Definition bind {A B : Type} (r : result A) (k : A -> result B) : result B :=
  match r with
  | Ok a => k a
  | Throw e => Throw e
  end.

Notation "'let*' x ':=' r 'in' k" := (bind r (fun x => k))
  (at level 10, x name, r at level 100, k at level 200).

Definition returns {A : Type} (r : result A) : Prop := exists a, r = Ok a.
Definition throws {A : Type} (r : result A) : Prop := exists e, r = Throw e.

(** ** Characters and strings of the JavaScript runtime *)

Module JS.

Definition code (c : ascii) : N := N_of_ascii c.

Definition LF : ascii := ascii_of_N 10.
Definition CR : ascii := ascii_of_N 13.
Definition TAB : ascii := ascii_of_N 9.
Definition SP : ascii := ascii_of_N 32.

Definition inRange (lo hi : N) (c : ascii) : bool :=
  (lo <=? code c)%N && (code c <=? hi)%N.

Definition isChar (d c : ascii) : bool := (code c =? code d)%N.

Fixpoint mapChars (f : ascii -> ascii) (s : string) : string :=
  match s with
  | EmptyString => EmptyString
  | String c t => String (f c) (mapChars f t)
  end.

Fixpoint filterChars (keep : ascii -> bool) (s : string) : string :=
  match s with
  | EmptyString => EmptyString
  | String c t => if keep c then String c (filterChars keep t) else filterChars keep t
  end.

Fixpoint allChars (p : ascii -> bool) (s : string) : bool :=
  match s with
  | EmptyString => true
  | String c t => p c && allChars p t
  end.

(** [s.split(d).join(r)] for one-character [d] and [r]: every occurrence of
    [d] becomes [r]. *)
Definition replaceChar (d r : ascii) (s : string) : string :=
  mapChars (fun c => if isChar d c then r else c) s.

(** [s.split("\r\n").join(" ")]: the occurrences of the two-character
    separator are found from the left and do not overlap. *)
Fixpoint replaceCRLF (s : string) : string :=
  match s with
  | EmptyString => EmptyString
  | String c t =>
      match t with
      | String c' t' =>
          if isChar CR c && isChar LF c' then String SP (replaceCRLF t')
          else String c (replaceCRLF t)
      | EmptyString => String c EmptyString
      end
  end.

(** [s.replace(/  +/g, ' ')]: a maximal run of two or more spaces becomes one
    space.  A space followed by a space is dropped, so the last space of the
    run is the one that stays. *)
Fixpoint collapseSpaces (s : string) : string :=
  match s with
  | EmptyString => EmptyString
  | String c t =>
      match t with
      | String c' _ =>
          if isChar SP c && isChar SP c' then collapseSpaces t
          else String c (collapseSpaces t)
      | EmptyString => String c EmptyString
      end
  end.

(** Canonical decomposition (UnicodeData, field 5) of the code points below
    U+0100: base letter and combining mark. *)
Definition canonicalDecomposition (n : N) : option (N * N) :=
  match n with
  | 0xC0 => Some (0x41, 0x300) | 0xC1 => Some (0x41, 0x301)
  | 0xC2 => Some (0x41, 0x302) | 0xC3 => Some (0x41, 0x303)
  | 0xC4 => Some (0x41, 0x308) | 0xC5 => Some (0x41, 0x30A)
  | 0xC7 => Some (0x43, 0x327)
  | 0xC8 => Some (0x45, 0x300) | 0xC9 => Some (0x45, 0x301)
  | 0xCA => Some (0x45, 0x302) | 0xCB => Some (0x45, 0x308)
  | 0xCC => Some (0x49, 0x300) | 0xCD => Some (0x49, 0x301)
  | 0xCE => Some (0x49, 0x302) | 0xCF => Some (0x49, 0x308)
  | 0xD1 => Some (0x4E, 0x303)
  | 0xD2 => Some (0x4F, 0x300) | 0xD3 => Some (0x4F, 0x301)
  | 0xD4 => Some (0x4F, 0x302) | 0xD5 => Some (0x4F, 0x303)
  | 0xD6 => Some (0x4F, 0x308)
  | 0xD9 => Some (0x55, 0x300) | 0xDA => Some (0x55, 0x301)
  | 0xDB => Some (0x55, 0x302) | 0xDC => Some (0x55, 0x308)
  | 0xDD => Some (0x59, 0x301)
  | 0xE0 => Some (0x61, 0x300) | 0xE1 => Some (0x61, 0x301)
  | 0xE2 => Some (0x61, 0x302) | 0xE3 => Some (0x61, 0x303)
  | 0xE4 => Some (0x61, 0x308) | 0xE5 => Some (0x61, 0x30A)
  | 0xE7 => Some (0x63, 0x327)
  | 0xE8 => Some (0x65, 0x300) | 0xE9 => Some (0x65, 0x301)
  | 0xEA => Some (0x65, 0x302) | 0xEB => Some (0x65, 0x308)
  | 0xEC => Some (0x69, 0x300) | 0xED => Some (0x69, 0x301)
  | 0xEE => Some (0x69, 0x302) | 0xEF => Some (0x69, 0x308)
  | 0xF1 => Some (0x6E, 0x303)
  | 0xF2 => Some (0x6F, 0x300) | 0xF3 => Some (0x6F, 0x301)
  | 0xF4 => Some (0x6F, 0x302) | 0xF5 => Some (0x6F, 0x303)
  | 0xF6 => Some (0x6F, 0x308)
  | 0xF9 => Some (0x75, 0x300) | 0xFA => Some (0x75, 0x301)
  | 0xFB => Some (0x75, 0x302) | 0xFC => Some (0x75, 0x308)
  | 0xFD => Some (0x79, 0x301) | 0xFF => Some (0x79, 0x308)
  | _ => None
  end%N.

(** [s.normalize('NFD')], as a sequence of code units: a character with a
    canonical decomposition becomes its base letter followed by the combining
    mark, any other character stays.  (No reordering is needed: a string of
    this alphabet never has two marks in a row.) *)
Fixpoint normalizeNFD (s : string) : list N :=
  match s with
  | EmptyString => []
  | String c t =>
      match canonicalDecomposition (code c) with
      | Some (base, mark) => base :: mark :: normalizeNFD t
      | None => code c :: normalizeNFD t
      end
  end.

(** A sequence of code units that are all below U+0100, read back as a
    string. *)
Definition fromCodeUnits (l : list N) : string :=
  string_of_list_ascii (map ascii_of_N l).

(** [s.toLowerCase()]: the cased letters below U+0100 are A-Z, U+00C0-U+00D6
    and U+00D8-U+00DE; each maps to the code point 32 above it. *)
Definition lowerChar (c : ascii) : ascii :=
  if inRange 0x41 0x5A c || inRange 0xC0 0xD6 c || inRange 0xD8 0xDE c
  then ascii_of_N (code c + 32)
  else c.

Definition toLowerCase (s : string) : string := mapChars lowerChar s.

(** White space and line terminators below U+0100, as [trim] removes them:
    TAB, LF, VT, FF, CR, SPACE and NO-BREAK SPACE. *)
Definition isWhiteSpace (c : ascii) : bool :=
  inRange 9 13 c || isChar SP c || (code c =? 0xA0)%N.

Fixpoint trimStart (s : string) : string :=
  match s with
  | EmptyString => EmptyString
  | String c t => if isWhiteSpace c then trimStart t else s
  end.

Fixpoint trimEnd (s : string) : string :=
  match s with
  | EmptyString => EmptyString
  | String c t =>
      match trimEnd t with
      | EmptyString => if isWhiteSpace c then EmptyString else String c EmptyString
      | t' => String c t'
      end
  end.

Definition trim (s : string) : string := trimEnd (trimStart s).

(** [s.split(d)] for a one-character separator: never empty. *)
Fixpoint splitOn (d : ascii) (s : string) : list string :=
  match s with
  | EmptyString => [EmptyString]
  | String c t =>
      if isChar d c then EmptyString :: splitOn d t
      else match splitOn d t with
           | w :: ws => String c w :: ws
           | [] => [String c EmptyString]
           end
  end.

(** [s.split("")]: the array of the characters of [s]. *)
Definition splitChars (s : string) : list ascii := list_ascii_of_string s.

End JS.

(** ** Numbers of the JavaScript runtime *)

Module Num.

(** The number that holds a counter. *)
Definition ofNat (k : nat) : float := PrimFloat.of_uint63 (Uint63.of_Z (Z.of_nat k)).

(** ToBoolean on a number: 0, -0 and NaN are falsy. *)
Definition truthy (n : float) : bool :=
  negb (PrimFloat.eqb n PrimFloat.zero) && negb (PrimFloat.is_nan n).

Definition isNegZero (n : float) : bool :=
  PrimFloat.is_zero n && PrimFloat.get_sign n.

(** [Math.min] of two numbers: NaN if either is NaN, and -0 below +0. *)
Definition min2 (a b : float) : float :=
  if PrimFloat.is_nan a || PrimFloat.is_nan b then PrimFloat.nan
  else if PrimFloat.ltb a b then a
  else if PrimFloat.ltb b a then b
  else if isNegZero a then a else b.

(** [Math.max] of two numbers: NaN if either is NaN, and +0 above -0. *)
Definition max2 (a b : float) : float :=
  if PrimFloat.is_nan a || PrimFloat.is_nan b then PrimFloat.nan
  else if PrimFloat.ltb a b then b
  else if PrimFloat.ltb b a then a
  else if isNegZero a then b else a.

(** [Math.min(...l)] and [Math.max(...l)]; of no argument they are
    +Infinity and -Infinity. *)
Definition Math_min (l : list float) : float := fold_left min2 l PrimFloat.infinity.
Definition Math_max (l : list float) : float := fold_left max2 l PrimFloat.neg_infinity.

(** [l.reduce((a, b) => a + b, 0)] *)
Definition sum (l : list float) : float := fold_left PrimFloat.add l PrimFloat.zero.

End Num.

(** ** The data model

    An entry of the matrix, the aggregate of a line set, and the trained
    model, as the source's JSDoc types them. *)

Record entry : Type := Entry { x : string; y : float }.

Record stats : Type := Stats { min : float; max : float; avg : float }.

Record model : Type :=
  Model { matrix : list entry; baseline_good : stats; baseline_bad : stats }.

(** ** Values of the JavaScript runtime

    What a caller can hand to the detector.  A function value is seen through
    what the detector can observe of it: the number its result compares as
    when it is called on a model (a function that throws or that writes to the
    model is not represented).  An object is the list of its own properties,
    the first binding of a name being the current one; prototypes are not
    represented, so the property name __proto__ is like any other here. *)

#[local] Set Warnings "-register-all".

Inductive value : Type :=
| VUndefined
| VNull
| VBool (b : bool)
| VNumber (n : float)
| VString (s : string)
| VFunction (f : model -> float)
| VArray (items : list value)
| VObject (props : list (string * value)).

Inductive jstype : Type :=
| TUndefined | TObject | TBoolean | TNumber | TString | TFunction.

Definition typeof (v : value) : jstype :=
  match v with
  | VUndefined => TUndefined
  | VNull => TObject
  | VBool _ => TBoolean
  | VNumber _ => TNumber
  | VString _ => TString
  | VFunction _ => TFunction
  | VArray _ => TObject
  | VObject _ => TObject
  end.

Definition isType (t : jstype) (v : value) : bool :=
  match t, typeof v with
  | TUndefined, TUndefined | TObject, TObject | TBoolean, TBoolean
  | TNumber, TNumber | TString, TString | TFunction, TFunction => true
  | _, _ => false
  end.

Arguments isType _ _ : simpl nomatch.

Definition isArray (v : value) : bool :=
  match v with VArray _ => true | _ => false end.

(** ToBoolean *)
Definition truthy (v : value) : bool :=
  match v with
  | VUndefined | VNull => false
  | VBool b => b
  | VNumber n => Num.truthy n
  | VString s => negb (String.eqb s "")
  | VFunction _ | VArray _ | VObject _ => true
  end.

Fixpoint lookupProp (name : string) (props : list (string * value)) : value :=
  match props with
  | [] => VUndefined
  | (k, v) :: rest => if String.eqb k name then v else lookupProp name rest
  end.

(** [o.name]: reading a property of null or undefined throws; a value that
    is not an object has none of the properties the detector reads from the
    values it has checked to be objects. *)
Definition getProp (o : value) (name : string) : result value :=
  match o with
  | VObject props => Ok (lookupProp name props)
  | VNull | VUndefined => Throw (TypeError "Cannot read properties of null or undefined")
  | _ => Ok VUndefined
  end.

(** [o[name] = v] on the own properties of an object, for a [name] other
    than __proto__, which an object inheriting from Object.prototype does not
    store as a property. *)
Definition setProp (name : string) (v : value) (props : list (string * value))
  : list (string * value) :=
  (name, v) :: props.

(** ** Sanitizer *)

(** The class [[!?.]] of sentence terminators. *)
Definition isTerminator (c : ascii) : bool :=
  (JS.code c =? 33)%N || (JS.code c =? 63)%N || (JS.code c =? 46)%N.

(** The class of the noise pattern: the digits, and the punctuation
    ! to / (33-47, the range ,-. included), : to @ (58-64), the two square
    brackets (91, 93), ^ _ and the backquote (94-96), and the braces, the bar
    and the tilde (123-126).  The backslash (92) only escapes the closing
    bracket and is not in the class. *)
Definition isNoise (c : ascii) : bool :=
  JS.inRange 48 57 c
  || JS.inRange 33 47 c
  || JS.inRange 58 64 c
  || (JS.code c =? 91)%N || (JS.code c =? 93)%N
  || JS.inRange 94 96 c
  || JS.inRange 123 126 c.

(** The two replacements of convertToLatinEquivalent on the normalised
    code units: the combining marks U+0300-U+036F go, then everything that is
    not in U+0000-U+007F. *)
Definition isCombiningMark (n : N) : bool := (0x300 <=? n)%N && (n <=? 0x36F)%N.
Definition isAsciiUnit (n : N) : bool := (n <=? 0x7F)%N.

Definition convertToLatinEquivalent (inputString : string) : string :=
  let normalizedString :=
    filter (fun n => isCombiningMark n = false) (JS.normalizeNFD inputString) in
  let latinEquivalentString := filter (fun n => isAsciiUnit n = true) normalizedString in
  JS.fromCodeUnits latinEquivalentString.

(** The body of sanitizeText once the sample is known to be a string. *)
Definition sanitizeString (sample : string) : string :=
  let sample := JS.replaceCRLF sample in
  let sample := JS.replaceChar JS.LF JS.SP sample in
  let sample := JS.replaceChar JS.TAB JS.SP sample in
  let sample := JS.mapChars (fun c => if isTerminator c then JS.SP else c) sample in
  let sample := JS.collapseSpaces sample in
  let sample := convertToLatinEquivalent sample in
  JS.filterChars (fun c => negb (isNoise c)) sample.

Definition sanitizeText (sample : value) : result string :=
  let sample := if truthy sample then sample else VString "" in
  match sample with
  | VString s => Ok (sanitizeString s)
  | _ => Throw (Error "Input sample must be a string")
  end.

(** ** Adjacent pairs

    Both loops of the source walk [split] with [x] from 0 and stop at the
    first [x] for which [split[x+1]] is falsy.  An element of [split] is a
    one-character string, which is truthy, so the loop stops exactly when
    [x+1] is past the end: it visits every adjacent pair, in order. *)

Definition letterPair (a b : ascii) : string := String a (String b EmptyString).

Fixpoint letterPairs (split : list ascii) : list string :=
  match split with
  | a :: rest =>
      match rest with
      | b :: _ => letterPair a b :: letterPairs rest
      | [] => []
      end
  | [] => []
  end.

(** ** Score engine *)

Definition convertJSONMatrixIntoMap (jsonArray : list entry) : gmap string float :=
  fold_left (fun map item => <[x item := y item]> map) jsonArray ∅.

Record scoreState : Type :=
  ScoreState { modelCache : gmap string float; pairCount : nat; totalScore : float }.

(** One turn of the loop of assignScore. *)
Definition scoreStep (useCache : bool) (matrixMap : gmap string float)
    (st : scoreState) (pair : string) : scoreState :=
  let '(modelFind, cache) :=
    match (if useCache then modelCache st !! pair else None) with
    | Some cached => (Some cached, modelCache st)
    | None =>
        match matrixMap !! pair with
        | Some found =>
            (Some found, if useCache then <[pair := found]> (modelCache st) else modelCache st)
        | None => (None, modelCache st)
        end
    end in
  let total :=
    match modelFind with
    | Some w => if Num.truthy w then PrimFloat.add (totalScore st) w else totalScore st
    | None => totalScore st
    end in
  ScoreState cache (S (pairCount st)) total.

Definition scoreLoop (useCache : bool) (matrixMap : gmap string float)
    (pairs : list string) : scoreState :=
  fold_left (scoreStep useCache matrixMap) pairs (ScoreState ∅ 0 PrimFloat.zero).

(** The pairs that scoring and training walk for a sanitized text. *)
Definition pairsOf (sanitized : string) : list string :=
  letterPairs (JS.splitChars (JS.toLowerCase sanitized)).

Definition assignScore (test : value) (matrix : list entry) (useCache : bool)
  : result float :=
  let* sanitized := sanitizeText test in
  let test := JS.replaceChar JS.LF JS.SP sanitized in
  let matrixMap := convertJSONMatrixIntoMap matrix in
  let st := scoreLoop useCache matrixMap (pairsOf test) in
  Ok (PrimFloat.div (totalScore st) (Num.ofNat (pairCount st))).

Definition calculateThreshold (m : model) : float :=
  PrimFloat.div (PrimFloat.add (min (baseline_good m)) (max (baseline_bad m)))
                (Num.ofNat 2).

(** ** Baseline calibrator *)

(** [l.map(f)] for a callback that may throw. *)
Fixpoint mapResult {A B : Type} (f : A -> result B) (l : list A) : result (list B) :=
  match l with
  | [] => Ok []
  | a :: rest =>
      let* b := f a in
      let* bs := mapResult f rest in
      Ok (b :: bs)
  end.

Definition scoreLines (lines : list string) (matrix : list entry) : result stats :=
  let* scores := mapResult (fun line => assignScore (VString (JS.trim line)) matrix true) lines in
  let min := Num.Math_min scores in
  let max := Num.Math_max scores in
  let average := PrimFloat.div (Num.sum scores) (Num.ofNat (length scores)) in
  Ok (Stats min max average).

(** ** Frequency model builder *)

(** The entries that train allocates live in [analysis], in the order of
    their first observation; [analysisCache] maps a pair to the position of
    its entry, so that [existingFind.y++] updates the entry the array
    holds. *)
Record trainState : Type :=
  TrainState { analysis : list (string * nat); analysisCache : gmap string nat }.

Definition trainStep (st : trainState) (pair : string) : trainState :=
  match analysisCache st !! pair with
  | Some existingFind =>
      TrainState (alter (fun e => (e.1, S e.2)) existingFind (analysis st))
                 (analysisCache st)
  | None =>
      TrainState (analysis st ++ [(pair, 1)])
                 (<[pair := length (analysis st)]> (analysisCache st))
  end.

Definition trainLoop (pairs : list string) : trainState :=
  fold_left trainStep pairs (TrainState [] ∅).

(** [analysis.sort((a, b) => b.y - a.y)]: descending in y, and stable, so an
    entry goes in front of the first entry that does not have more hits. *)
Fixpoint insertByHits (a : string * nat) (sorted : list (string * nat))
  : list (string * nat) :=
  match sorted with
  | [] => [a]
  | b :: rest => if (a.2 <? b.2)%nat then b :: insertByHits a rest else a :: sorted
  end.

Definition sortByHits (l : list (string * nat)) : list (string * nat) :=
  foldr insertByHits [] l.

(** The hits of every pair of the corpus, as train leaves them in
    [analysis] after the sort. *)
Definition countPairs (sanitized : string) : list (string * nat) :=
  sortByHits (analysis (trainLoop (pairsOf sanitized))).

Definition toEntry (e : string * nat) : entry := Entry e.1 (Num.ofNat e.2).

(** A line set: one newline-delimited string, or an array of strings, the
    two forms train documents.  A line set of another type is not
    represented: train calls its [split], which throws on a value without
    that method. *)
Inductive lineSet : Type :=
| LinesText (text : string)
| LinesArray (lines : list string).

Definition toLines (l : lineSet) : list string :=
  match l with
  | LinesArray lines => lines
  | LinesText text => map JS.trim (JS.splitOn JS.LF text)
  end.

Definition train (sample : value) (goodLines badLines : lineSet) : result model :=
  let* sample := sanitizeText sample in
  let analysis := map toEntry (countPairs sample) in
  let goodLines := toLines goodLines in
  let badLines := toLines badLines in
  let* good := scoreLines goodLines analysis in
  let* bad := scoreLines badLines analysis in
  Ok (Model analysis good bad).

(** ** Validators *)

Definition stringLength (v : value) : nat :=
  match v with VString s => String.length s | _ => 0 end.

(** The callback of [matrix.some]: [true] when it sets errorState. *)
Definition entryError (m : value) : result bool :=
  if negb (isType TObject m) || isArray m then Ok true
  else
    let* mx := getProp m "x" in
    if negb (isType TString mx) || negb (stringLength mx =? 2)%nat then Ok true
    else
      let* my := getProp m "y" in
      if negb (isType TNumber my) then Ok true else Ok false.

(** [matrix.some(callback)] stops at the first entry for which the callback
    returns a truthy value. *)
Fixpoint someEntryError (items : list value) : result bool :=
  match items with
  | [] => Ok false
  | m :: rest =>
      let* errorState := entryError m in
      if errorState then Ok true else someEntryError rest
  end.

Definition isValidMatrix (matrix : value) : result bool :=
  match matrix with
  | VArray items =>
      let* errorState := someEntryError items in
      Ok (negb errorState)
  | _ => Ok false
  end.

(** [!v || typeof v !== "object" || Array.isArray(v)] *)
Definition notPlainObject (v : value) : bool :=
  negb (truthy v) || negb (isType TObject v) || isArray v.

Definition statsError (s : value) : result bool :=
  let* smin := getProp s "min" in
  let* smax := getProp s "max" in
  let* savg := getProp s "avg" in
  Ok (negb (isType TNumber smin) || negb (isType TNumber smax)
      || negb (isType TNumber savg)).

Definition isValidModel (m : value) : result bool :=
  if notPlainObject m then Ok false
  else
    let* mmatrix := getProp m "matrix" in
    let* okMatrix := isValidMatrix mmatrix in
    if negb okMatrix then Ok false
    else
      let* baseline := getProp m "baseline" in
      if notPlainObject baseline then Ok false
      else
        let* good := getProp baseline "good" in
        if notPlainObject good then Ok false
        else
          let* goodError := statsError good in
          if goodError then Ok false
          else
            let* bad := getProp baseline "bad" in
            if notPlainObject bad then Ok false
            else
              let* badError := statsError bad in
              if badError then Ok false else Ok true.

(** *** The typed view of a value the validators accept *)

Definition parseEntry (m : value) : option entry :=
  match m with
  | VObject props =>
      match lookupProp "x" props, lookupProp "y" props with
      | VString s, VNumber n => Some (Entry s n)
      | _, _ => None
      end
  | _ => None
  end.

Definition parseMatrix (v : value) : option (list entry) :=
  match v with
  | VArray items => mapM parseEntry items
  | _ => None
  end.

Definition parseStats (v : value) : option stats :=
  match v with
  | VObject props =>
      match lookupProp "min" props, lookupProp "max" props, lookupProp "avg" props with
      | VNumber a, VNumber b, VNumber c => Some (Stats a b c)
      | _, _, _ => None
      end
  | _ => None
  end.

Definition parseModel (v : value) : option model :=
  match v with
  | VObject props =>
      match parseMatrix (lookupProp "matrix" props), lookupProp "baseline" props with
      | Some entries, VObject baseline =>
          match parseStats (lookupProp "good" baseline),
                parseStats (lookupProp "bad" baseline) with
          | Some good, Some bad => Some (Model entries good bad)
          | _, _ => None
          end
      | _, _ => None
      end
  | _ => None
  end.

(** The object a model serialises to. *)
Definition entryValue (e : entry) : value :=
  VObject [("x", VString (x e)); ("y", VNumber (y e))].

Definition statsValue (s : stats) : value :=
  VObject [("min", VNumber (min s)); ("max", VNumber (max s)); ("avg", VNumber (avg s))].

Definition modelValue (m : model) : value :=
  VObject [("matrix", VArray (map entryValue (matrix m)));
           ("baseline", VObject [("good", statsValue (baseline_good m));
                                 ("bad", statsValue (baseline_bad m))])].

(** ** Detector *)

(** A [useCache = true] parameter: an undefined argument takes the default,
    any other is read as a condition. *)
Definition useCacheFlag (useCache : value) : bool :=
  match useCache with
  | VUndefined => true
  | _ => truthy useCache
  end.

(** testGibberish works on a model that isValidModel has accepted: on the
    configured one after testConfig, on an override after the check in
    detect.  [parseModel] is the typed view of such a model. *)
Definition testGibberish (test m thresholdFn useCache : value) : result bool :=
  let thresholdFn := if truthy thresholdFn then thresholdFn else VFunction calculateThreshold in
  match parseModel m with
  | None => Throw (TypeError "model is not of the validated shape")
  | Some typed =>
      let* score := assignScore test (matrix typed) (useCacheFlag useCache) in
      match thresholdFn with
      | VFunction f => Ok (PrimFloat.leb score (f typed))
      | _ => Throw (TypeError "thresholdFn is not a function")
      end
  end.

(** The configuration is the object [config] of the factory's closure: the
    list of its own properties. *)
Definition configuration : Type := list (string * value).

Definition testConfig (config : configuration) : result unit :=
  let* okModel := isValidModel (lookupProp "model" config) in
  if negb okModel then Throw (Error "model provided is not a valid structure.")
  else if negb (isType TFunction (lookupProp "thresholdFn" config))
  then Throw (Error "thresholdFn must be a function")
  else if negb (isType TBoolean (lookupProp "useCache" config))
  then Throw (Error "useCache must be a boolean")
  else Ok tt.

(** The own enumerable properties that [{...v}] copies. *)
Definition spread (v : value) : list (string * value) :=
  match v with
  | VObject props => props
  | VArray items => imap (fun i item => (pretty i, item)) items
  | _ => []
  end.

Module Detector.

(** The factory.  [shipped] is the content of data/model.json, the data file
    that the factory loads; it is a parameter here. *)
Definition create (shipped : value) (config : value) : result configuration :=
  if truthy config && negb (isType TObject config) && negb (isArray config)
  then Throw (Error "config argument must be an object")
  else
    let defaultConfig :=
      [("model", shipped); ("thresholdFn", VFunction calculateThreshold);
       ("useCache", VBool true)] in
    let config := (spread config ++ defaultConfig)%list in
    let* _ := testConfig config in
    Ok config.

(** [set] returns what the call does and the configuration it leaves. *)
Definition set (name : string) (v : value) (config : configuration)
  : result unit * configuration :=
  let cloneConfig := setProp name v config in
  match testConfig cloneConfig with
  | Throw e => (Throw e, config)
  | Ok _ => (Ok tt, setProp name v config)
  end.

(** [config[name]] for a name the configuration holds as a property of its
    own; the properties the configuration inherits from Object.prototype are
    not represented, and a name it lacks reads as undefined. *)
Definition get (name : string) (config : configuration) : value :=
  lookupProp name config.

Definition assignScore (config : configuration) (testString overrideMatrix : value)
  : result float :=
  let* overrideMatrix :=
    if truthy overrideMatrix then
      let* okMatrix := isValidMatrix overrideMatrix in
      if negb okMatrix then
        let* okModel := isValidModel overrideMatrix in
        if okModel then getProp overrideMatrix "matrix"
        else Throw (Error "Malformed matrix provided")
      else Ok overrideMatrix
    else Ok overrideMatrix in
  let* useMatrix :=
    if truthy overrideMatrix then Ok overrideMatrix
    else getProp (lookupProp "model" config) "matrix" in
  match parseMatrix useMatrix with
  | None => Throw (TypeError "matrix is not of the validated shape")
  | Some entries =>
      assignScore testString entries (useCacheFlag (lookupProp "useCache" config))
  end.

Definition detect (config : configuration) (testString overrideModel : value)
  : result bool :=
  let* malformed :=
    if truthy overrideModel then
      let* okModel := isValidModel overrideModel in Ok (negb okModel)
    else Ok false in
  if malformed then Throw (Error "Malformed learning model provided")
  else
    let useModel := if truthy overrideModel then overrideModel
                    else lookupProp "model" config in
    testGibberish testString useModel (lookupProp "thresholdFn" config)
                  (lookupProp "useCache" config).

End Detector.

(** ** The earlier revision of assignScore (index.js)

    It searches the matrix array itself and memoises the entry it finds in
    [modelCache], an identifier that the function does not declare: it is
    resolved outside the call.  [binding] is what that identifier is bound to
    when the call starts: nothing, or an object that outlives the call. *)

Module Legacy.

Definition cacheObject : Type := gmap string (option entry).

(** [matrix.find(m => m.x == letterPair)] *)
Definition find (matrix : list entry) (pair : string) : option entry :=
  List.find (fun m => String.eqb (x m) pair) matrix.

Record scoreState : Type :=
  ScoreState { binding : option cacheObject; pairCount : nat; totalScore : float }.

Definition scoreStep (useCache : bool) (matrix : list entry)
    (st : scoreState) (pair : string) : result scoreState :=
  let* found :=
    if useCache then
      match binding st with
      | None => Throw (ReferenceError "modelCache is not defined")
      | Some cache =>
          match cache !! pair with
          | Some (Some cached) => Ok (Some cached, Some cache)
          | _ =>
              let modelFind := find matrix pair in
              Ok (modelFind, Some (<[pair := modelFind]> cache))
          end
      end
    else Ok (find matrix pair, binding st) in
  let total :=
    match found.1 with
    | Some modelFind => PrimFloat.add (totalScore st) (y modelFind)
    | None => totalScore st
    end in
  Ok (ScoreState found.2 (S (pairCount st)) total).

Fixpoint scoreLoop (useCache : bool) (matrix : list entry) (pairs : list string)
    (st : scoreState) : result float * option cacheObject :=
  match pairs with
  | [] => (Ok (PrimFloat.div (totalScore st) (Num.ofNat (pairCount st))), binding st)
  | letters :: rest =>
      match scoreStep useCache matrix st letters with
      | Ok st' => scoreLoop useCache matrix rest st'
      | Throw e => (Throw e, binding st)
      end
  end.

(** The call returns its result and what [modelCache] is bound to after it. *)
Definition assignScore (modelCache : option cacheObject) (test : string)
    (matrix : list entry) (useCache : bool) : result float * option cacheObject :=
  let sanitized := sanitizeString test in
  let test := JS.replaceChar JS.LF JS.SP sanitized in
  scoreLoop useCache matrix (pairsOf test) (ScoreState modelCache 0 PrimFloat.zero).

End Legacy.

(** * Vocabulary of the statements *)

(** ** Strings and characters *)

(** Two adjacent spaces somewhere in the string. *)
Fixpoint hasDoubleSpace (s : string) : bool :=
  match s with
  | EmptyString => false
  | String c t =>
      match t with
      | String c' _ => (JS.isChar JS.SP c && JS.isChar JS.SP c') || hasDoubleSpace t
      | EmptyString => false
      end
  end.

Definition isAsciiChar (c : ascii) : bool := isAsciiUnit (JS.code c).

(** What one character becomes through convertToLatinEquivalent. *)
Definition latinChar (c : ascii) : string := convertToLatinEquivalent (String c EmptyString).

(** A character that is no line feed and no tab. *)
Definition plain (c : ascii) : bool := negb (JS.isChar JS.LF c) && negb (JS.isChar JS.TAB c).

(** The characters that are left in a sanitized string. *)
Definition residual (c : ascii) : bool :=
  negb (isNoise c) && (isAsciiChar c && plain c).

(** ** Numbers *)

(** A number whose sign bit is clear, or NaN. *)
Definition sfNonNeg (f : spec_float) : bool :=
  match f with
  | S754_zero s | S754_infinity s | S754_finite s _ _ => negb s
  | S754_nan => true
  end.

Definition nonNeg (a : float) : bool := sfNonNeg (Prim2SF a).

(** ** Scores *)

(** What a pair adds to the total: the count found for it, if that count is
    truthy. *)
Definition addFound (total : float) (found : option float) : float :=
  match found with
  | Some w => if Num.truthy w then PrimFloat.add total w else total
  | None => total
  end.

(** The table's count for a pair, 0 when the pair is absent. *)
Definition weight (matrixMap : gmap string float) (pair : string) : float :=
  default PrimFloat.zero (matrixMap !! pair).

(** Every count of the table is above 0. *)
Definition positiveCounts (matrix : list entry) : Prop :=
  Forall (fun e => PrimFloat.ltb PrimFloat.zero (y e) = true) matrix.

(** The aggregate of an empty line set. *)
Definition emptyStats : stats :=
  Stats PrimFloat.infinity PrimFloat.neg_infinity PrimFloat.nan.

(** ** Matrices *)

(** An entry the callback of isValidMatrix lets through: a plain object whose
    x is a string of two characters and whose y is a number, whatever the
    number. *)
Definition wellShaped (m : value) : Prop :=
  exists props s n,
    m = VObject props /\ lookupProp "x" props = VString s /\ String.length s = 2
    /\ lookupProp "y" props = VNumber n.

(** ** Training *)

(** The update of [analysis] that a turn of the loop amounts to once the
    aliasing is resolved: the entry of the pair gets one more hit, or a new
    entry with one hit is pushed. *)
Fixpoint tally (l : list (string * nat)) (p : string) : list (string * nat) :=
  match l with
  | [] => [(p, 1)]
  | e :: rest => if decide (e.1 = p) then (e.1, S e.2) :: rest else e :: tally rest p
  end.

(** The hits listed for a pair. *)
Fixpoint hitsOf (l : list (string * nat)) (p : string) : option nat :=
  match l with
  | [] => None
  | e :: rest => if decide (e.1 = p) then Some e.2 else hitsOf rest p
  end.

(** How many times a pair occurs among the pairs of a text. *)
Definition occurrences (p : string) (pairs : list string) : nat :=
  length (filter (fun q => q = p) pairs).

Definition positiveOrNone (n : nat) : option nat :=
  match n with 0 => None | S _ => Some n end.

(** The cache of train maps a pair to the position of its entry. *)
Definition cacheAligned (st : trainState) : Prop :=
  NoDup (analysis st).*1
  /\ forall p i, analysisCache st !! p = Some i <-> (analysis st).*1 !! i = Some p.

(** ** Line sets *)

(** A line with fewer than two sanitized characters. *)
Definition blankLine (line : string) : Prop :=
  String.length (sanitizeString (JS.trim line)) < 2.

(** A string that does not begin with white space. *)
Definition startsClean (s : string) : Prop :=
  match s with
  | EmptyString => True
  | String c _ => JS.isWhiteSpace c = false
  end.

(** ** The sorted table *)

(** An entry stands before the entries that have at most its hits. *)
Definition byHits (a b : string * nat) : Prop := (b.2 <= a.2)%nat.

(** ** The detector object *)

(** The calls of set that a program makes on a detector, one after the
    other. *)
Definition applySets (calls : list (string * value)) (config : configuration)
  : configuration :=
  fold_left (fun config call => (Detector.set call.1 call.2 config).2) calls config.

(** ** The earlier revision *)

(** The total of the earlier revision after one pair. *)
Definition legacyAdd (matrix : list entry) (total : float) (pair : string) : float :=
  match Legacy.find matrix pair with
  | Some modelFind => PrimFloat.add total (y modelFind)
  | None => total
  end.

(** A cache object that holds, under a pair, the entry the matrix has for
    it. *)
Definition cacheOf (matrix : list entry) (cache : Legacy.cacheObject) : Prop :=
  forall pair e, cache !! pair = Some (Some e) -> Legacy.find matrix pair = Some e.

(** ** Sample data for the concrete instances *)

Definition sampleMatrix : list entry := [Entry "ab" 3; Entry "b " 5; Entry " c" 1].

Definition sampleModel : model :=
  Model sampleMatrix (Stats 2 4 3) (Stats 0 1 0.5).

(** The configuration the factory builds around the sample model. *)
Definition sampleConfig : configuration :=
  [("model", modelValue sampleModel); ("thresholdFn", VFunction calculateThreshold);
   ("useCache", VBool true)].

(** * Properties *)

(** ** Strings *)

Section StringFacts.

Import JS.

Lemma isChar_true (d c : ascii) : isChar d c = true <-> c = d.
Proof.
  unfold isChar, code. rewrite N.eqb_eq. split; [|by intros ->].
  intros E. rewrite <- (ascii_N_embedding c), <- (ascii_N_embedding d). by rewrite E.
Qed.

Lemma allChars_cons p c s : allChars p (String c s) = true <-> p c = true /\ allChars p s = true.
Proof. simpl. apply andb_true_iff. Qed.

Lemma allChars_weaken (p q : ascii -> bool) s :
  (forall c, p c = true -> q c = true) -> allChars p s = true -> allChars q s = true.
Proof.
  intros Hpq. induction s as [|c s IH]; [done|].
  rewrite !allChars_cons. intros [? ?]. auto.
Qed.

Lemma allChars_mapChars (p q : ascii -> bool) f s :
  (forall c, q c = true -> p (f c) = true) ->
  allChars q s = true -> allChars p (mapChars f s) = true.
Proof.
  intros Hf. induction s as [|c s IH]; [done|].
  simpl mapChars. rewrite !allChars_cons. intros [? ?]. auto.
Qed.

Lemma allChars_filterChars_keep keep s : allChars keep (filterChars keep s) = true.
Proof.
  induction s as [|c s IH]; [done|]. simpl.
  destruct (keep c) eqn:E; [|done]. by rewrite allChars_cons.
Qed.

Lemma allChars_filterChars p keep s :
  allChars p s = true -> allChars p (filterChars keep s) = true.
Proof.
  induction s as [|c s IH]; [done|]. rewrite allChars_cons. intros [? ?]. simpl.
  destruct (keep c); [rewrite allChars_cons|]; auto.
Qed.

Lemma allChars_collapseSpaces p s :
  allChars p s = true -> allChars p (collapseSpaces s) = true.
Proof.
  induction s as [|c s IH]; [done|]. rewrite allChars_cons. intros [Hc Hs].
  simpl. destruct s as [|c' s']; [by rewrite allChars_cons|].
  destruct (isChar SP c && isChar SP c'); [auto|].
  rewrite allChars_cons. auto.
Qed.

Lemma allChars_and p q s :
  allChars (fun c => p c && q c) s = true <-> allChars p s = true /\ allChars q s = true.
Proof.
  induction s as [|c s IH]; [simpl; tauto|].
  rewrite !allChars_cons, IH, andb_true_iff. tauto.
Qed.

Lemma mapChars_id f p s :
  (forall c, p c = true -> f c = c) -> allChars p s = true -> mapChars f s = s.
Proof.
  intros Hf. induction s as [|c s IH]; [done|].
  rewrite allChars_cons. intros [? ?]. simpl. f_equal; auto.
Qed.

Lemma filterChars_id keep s : allChars keep s = true -> filterChars keep s = s.
Proof.
  induction s as [|c s IH]; [done|]. rewrite allChars_cons. intros [Hc ?].
  simpl. rewrite Hc. f_equal; auto.
Qed.

Lemma replaceCRLF_id s :
  allChars (fun c => negb (isChar LF c)) s = true -> replaceCRLF s = s.
Proof.
  induction s as [|c s IH]; [done|]. rewrite allChars_cons. intros [_ Hs].
  simpl. destruct s as [|c' s']; [done|].
  pose proof Hs as Hs'. rewrite allChars_cons in Hs'. destruct Hs' as [Hc' _].
  apply negb_true_iff in Hc'. rewrite Hc', andb_false_r. f_equal. auto.
Qed.

Lemma collapseSpaces_length s : String.length (collapseSpaces s) <= String.length s.
Proof.
  induction s as [|c s IH]; [done|]. simpl.
  destruct s as [|c' s']; [done|].
  destruct (isChar SP c && isChar SP c'); simpl in *; lia.
Qed.

Lemma collapseSpaces_fixed s : collapseSpaces s = s <-> hasDoubleSpace s = false.
Proof.
  induction s as [|c s IH]; [done|]. simpl.
  destruct s as [|c' s']; [done|].
  destruct (isChar SP c && isChar SP c') eqn:E; simpl orb.
  - split; [|done]. intros Heq.
    pose proof (collapseSpaces_length (String c' s')) as Hlen.
    rewrite Heq in Hlen. simpl in Hlen. lia.
  - rewrite <- IH. split; [by intros [= ?]|by intros ->].
Qed.

Lemma collapseSpaces_head c s :
  exists t, collapseSpaces (String c s) = String c t.
Proof.
  revert c. induction s as [|c' s IH]; intros c; [by eexists|].
  simpl. destruct (isChar SP c && isChar SP c') eqn:E.
  - apply andb_true_iff in E as [Hc Hc']. apply isChar_true in Hc, Hc'. subst.
    apply (IH SP).
  - by eexists.
Qed.

Lemma collapseSpaces_no_double s : hasDoubleSpace (collapseSpaces s) = false.
Proof.
  induction s as [|c s IH]; [done|].
  destruct s as [|c' s']; [done|].
  change (collapseSpaces (String c (String c' s')))
    with (if isChar SP c && isChar SP c' then collapseSpaces (String c' s')
          else String c (collapseSpaces (String c' s'))).
  destruct (isChar SP c && isChar SP c') eqn:E; [done|].
  destruct (collapseSpaces_head c' s') as [t Ht]. rewrite Ht in IH |- *.
  simpl. simpl in IH. by rewrite E, IH.
Qed.

Lemma collapseSpaces_idempotent s :
  collapseSpaces (collapseSpaces s) = collapseSpaces s.
Proof. apply collapseSpaces_fixed, collapseSpaces_no_double. Qed.

End StringFacts.

(** ** Sanitizer *)

Section SanitizerFacts.

Import JS.

Lemma fromCodeUnits_app l k : fromCodeUnits (l ++ k) = (fromCodeUnits l ++ fromCodeUnits k)%string.
Proof.
  unfold fromCodeUnits. induction l as [|n l IH]; [done|]. simpl. by rewrite IH.
Qed.

Lemma convertToLatinEquivalent_cons c s :
  convertToLatinEquivalent (String c s) = (latinChar c ++ convertToLatinEquivalent s)%string.
Proof.
  unfold latinChar, convertToLatinEquivalent.
  rewrite <- fromCodeUnits_app, <- !filter_app. do 3 f_equal.
  simpl. destruct (canonicalDecomposition (code c)) as [[base mark]|]; done.
Qed.

Ltac each_char c := destruct c as [[] [] [] [] [] [] [] []]; vm_compute; try done.

Lemma latinChar_ascii c : isAsciiChar c = true -> latinChar c = String c EmptyString.
Proof. each_char c. Qed.

Lemma latinChar_plain c :
  plain c = true -> allChars (fun d => isAsciiChar d && plain d) (latinChar c) = true.
Proof. each_char c. Qed.

Lemma allChars_app p s t :
  allChars p (s ++ t)%string = true <-> allChars p s = true /\ allChars p t = true.
Proof.
  induction s as [|c s IH]; [simpl; tauto|].
  change (String c s ++ t)%string with (String c (s ++ t)%string).
  rewrite !allChars_cons. tauto.
Qed.

Lemma convertToLatinEquivalent_plain s :
  allChars plain s = true ->
  allChars (fun d => isAsciiChar d && plain d) (convertToLatinEquivalent s) = true.
Proof.
  induction s as [|c s IH]; [done|]. rewrite allChars_cons. intros [Hc Hs].
  rewrite convertToLatinEquivalent_cons, allChars_app. auto using latinChar_plain.
Qed.

Lemma convertToLatinEquivalent_id s :
  allChars isAsciiChar s = true -> convertToLatinEquivalent s = s.
Proof.
  induction s as [|c s IH]; [done|]. rewrite allChars_cons. intros [Hc Hs].
  rewrite convertToLatinEquivalent_cons, latinChar_ascii, IH; done.
Qed.

Lemma sanitizeString_residual s : allChars residual (sanitizeString s) = true.
Proof.
  unfold sanitizeString, residual. apply allChars_and. split.
  - apply allChars_filterChars_keep.
  - apply allChars_filterChars, convertToLatinEquivalent_plain, allChars_collapseSpaces.
    apply allChars_mapChars with (q := plain).
    { intros c Hc. by destruct (isTerminator c). }
    unfold replaceChar. apply allChars_mapChars with (q := fun c => negb (isChar LF c)).
    { intros c Hc. unfold plain. destruct (isChar TAB c) eqn:E; [done|].
      by rewrite Hc, E. }
    apply allChars_mapChars with (q := fun _ => true).
    { intros c _. simpl. destruct (isChar LF c) eqn:E; [reflexivity|by rewrite E]. }
    clear. induction (replaceCRLF s); done.
Qed.

Lemma residual_not_terminator c : residual c = true -> isTerminator c = false.
Proof. each_char c. Qed.

Lemma residual_plain c : residual c = true -> plain c = true.
Proof.
  unfold residual. intros H.
  apply andb_true_iff in H as [_ H]. by apply andb_true_iff in H as [_ H].
Qed.

(** On a string of residual characters only the space collapse acts. *)
Lemma sanitizeString_on_residual t :
  allChars residual t = true -> sanitizeString t = collapseSpaces t.
Proof.
  intros Ht. unfold sanitizeString.
  assert (Hplain : allChars plain t = true).
  { revert Ht. apply allChars_weaken, residual_plain. }
  apply allChars_and in Hplain as [HLF HTAB].
  rewrite replaceCRLF_id by exact HLF.
  assert (E1 : replaceChar LF SP t = t).
  { apply mapChars_id with (p := fun c => negb (isChar LF c)); [|exact HLF].
    intros c Hc. apply negb_true_iff in Hc. by rewrite Hc. }
  assert (E2 : replaceChar TAB SP t = t).
  { apply mapChars_id with (p := fun c => negb (isChar TAB c)); [|exact HTAB].
    intros c Hc. apply negb_true_iff in Hc. by rewrite Hc. }
  assert (E3 : mapChars (fun c => if isTerminator c then SP else c) t = t).
  { apply mapChars_id with (p := residual); [|exact Ht].
    intros c Hc. by rewrite residual_not_terminator. }
  rewrite E1, E2, E3.
  assert (Hu : allChars residual (collapseSpaces t) = true)
    by by apply allChars_collapseSpaces.
  unfold residual in Hu. apply allChars_and in Hu as [Hnoise Hrest].
  apply allChars_and in Hrest as [Hascii _].
  rewrite convertToLatinEquivalent_id by done.
  by apply filterChars_id.
Qed.

End SanitizerFacts.

(** C3: sanitizeText is not idempotent.  It collapses the runs of spaces
    before it deletes the noise characters, so a digit or a comma between two
    spaces leaves two adjacent spaces in the result, which a second pass
    collapses; a sentence terminator in the same place, turned into a space
    before the collapse, leaves one. *)
Lemma sanitize_not_idempotent :
  sanitizeText (VString "a 1 b") = Ok "a  b"
  /\ sanitizeText (VString "a  b") = Ok "a b"
  /\ sanitizeString (sanitizeString "a 1 b") <> sanitizeString "a 1 b"
  /\ sanitizeText (VString "a , b") = Ok "a  b"
  /\ sanitizeText (VString "a . b") = Ok "a b".
Proof. repeat split; try reflexivity. vm_compute. discriminate. Qed.

(** The reach of the late deletion: a second pass over a sanitized string
    does nothing but collapse the runs of spaces the first pass left, so the
    two passes differ exactly when the first result has two adjacent spaces,
    and a third pass changes nothing. *)
Theorem sanitize_twice (s : string) :
  sanitizeString (sanitizeString s) = JS.collapseSpaces (sanitizeString s)
  /\ (sanitizeString (sanitizeString s) = sanitizeString s
      <-> hasDoubleSpace (sanitizeString s) = false)
  /\ sanitizeString (sanitizeString (sanitizeString s))
     = sanitizeString (sanitizeString s).
Proof.
  pose proof (sanitizeString_residual s) as Hres.
  assert (E : sanitizeString (sanitizeString s) = JS.collapseSpaces (sanitizeString s))
    by by apply sanitizeString_on_residual.
  split; [done|]. split.
  - rewrite E. apply collapseSpaces_fixed.
  - rewrite E at 2. rewrite E, sanitizeString_on_residual.
    + apply collapseSpaces_idempotent.
    + by apply allChars_collapseSpaces.
Qed.

(** ** Numbers *)

Section NumberFacts.

(** Every comparison with NaN is false. *)
Lemma nan_leb (t : float) : PrimFloat.leb PrimFloat.nan t = false.
Proof. rewrite FloatAxioms.leb_spec. reflexivity. Qed.

Lemma positive_spec (w : float) :
  PrimFloat.ltb PrimFloat.zero w = true ->
  Prim2SF w = S754_infinity false \/ exists m e, Prim2SF w = S754_finite false m e.
Proof.
  rewrite FloatAxioms.ltb_spec. change (Prim2SF PrimFloat.zero) with (S754_zero false).
  destruct (Prim2SF w) as [s|s| |s m e]; try done; destruct s; try done; eauto.
Qed.

Lemma positive_truthy (w : float) :
  PrimFloat.ltb PrimFloat.zero w = true -> Num.truthy w = true.
Proof.
  intros H. unfold Num.truthy, PrimFloat.is_nan. rewrite !FloatAxioms.eqb_spec.
  change (Prim2SF PrimFloat.zero) with (S754_zero false).
  destruct (positive_spec w H) as [E|(m & e & E)]; rewrite E; [done|].
  unfold SFeqb, SFcompare. by rewrite Z.compare_refl, Pos.compare_cont_refl.
Qed.

Lemma add_zero (a : float) :
  nonNeg a = true -> PrimFloat.add a PrimFloat.zero = a.
Proof.
  unfold nonNeg. intros H. apply Prim2SF_inj. rewrite FloatAxioms.add_spec.
  change (Prim2SF PrimFloat.zero) with (S754_zero false).
  destruct (Prim2SF a) as [[]|[]| |s m e]; done.
Qed.

Lemma add_positive (a w : float) :
  nonNeg a = true -> PrimFloat.ltb PrimFloat.zero w = true ->
  nonNeg (PrimFloat.add a w) = true.
Proof.
  unfold nonNeg. intros Ha Hw. rewrite FloatAxioms.add_spec.
  destruct (positive_spec w Hw) as [E|(m & e & E)]; rewrite E;
    destruct (Prim2SF a) as [[]|[]| |[] ma ea]; try done.
  unfold SF64add, SFadd. simpl Z.add.
  unfold binary_normalize, binary_round, binary_round_aux.
  repeat case_match; done.
Qed.

End NumberFacts.

(** ** Score engine *)

Section ScoreFacts.

Variable useCache : bool.
Variable matrixMap : gmap string float.

Lemma scoreStep_spec (st : scoreState) (pair : string) :
  modelCache st ⊆ matrixMap ->
  modelCache (scoreStep useCache matrixMap st pair) ⊆ matrixMap
  /\ pairCount (scoreStep useCache matrixMap st pair) = S (pairCount st)
  /\ totalScore (scoreStep useCache matrixMap st pair)
     = addFound (totalScore st) (matrixMap !! pair).
Proof.
  intros Hsub. unfold scoreStep.
  destruct useCache; simpl.
  - destruct (modelCache st !! pair) as [cached|] eqn:Hc.
    + rewrite (lookup_weaken _ _ _ _ Hc Hsub). done.
    + destruct (matrixMap !! pair) as [found|] eqn:Hm; simpl; [|done].
      split; [|done]. by apply insert_subseteq_l.
  - destruct (matrixMap !! pair) as [found|]; done.
Qed.

Lemma scoreLoop_from (pairs : list string) (st : scoreState) :
  modelCache st ⊆ matrixMap ->
  pairCount (fold_left (scoreStep useCache matrixMap) pairs st)
  = pairCount st + length pairs
  /\ totalScore (fold_left (scoreStep useCache matrixMap) pairs st)
     = fold_left (fun total pair => addFound total (matrixMap !! pair)) pairs
                 (totalScore st).
Proof.
  revert st. induction pairs as [|pair pairs IH]; intros st Hsub; simpl.
  - split; [lia|done].
  - destruct (scoreStep_spec st pair Hsub) as (Hsub' & Hcount & Htotal).
    destruct (IH _ Hsub') as [IHc IHt]. rewrite IHc, IHt, Hcount, Htotal.
    split; [lia|done].
Qed.

Lemma scoreLoop_spec (pairs : list string) :
  pairCount (scoreLoop useCache matrixMap pairs) = length pairs
  /\ totalScore (scoreLoop useCache matrixMap pairs)
     = fold_left (fun total pair => addFound total (matrixMap !! pair)) pairs
                 PrimFloat.zero.
Proof.
  unfold scoreLoop. apply (scoreLoop_from pairs (ScoreState ∅ 0 PrimFloat.zero)).
  apply map_empty_subseteq.
Qed.

End ScoreFacts.

(** The score does not depend on the cache flag: assignScore allocates
    [modelCache] in the call and writes to it only what the matrix map holds,
    so that a cached call and an uncached call return the same number. *)
Lemma assignScore_cache_transparent (test : value) (matrix : list entry) :
  assignScore test matrix true = assignScore test matrix false.
Proof.
  unfold assignScore. destruct (sanitizeText test) as [s|e]; [|done]. simpl.
  set (M := convertJSONMatrixIntoMap matrix).
  set (pairs := pairsOf (JS.replaceChar JS.LF JS.SP s)).
  destruct (scoreLoop_spec true M pairs) as [-> ->].
  by destruct (scoreLoop_spec false M pairs) as [-> ->].
Qed.

Section AverageFacts.

Lemma convertJSONMatrixIntoMap_lookup (matrix : list entry) (acc : gmap string float) k v :
  fold_left (fun map item => <[x item := y item]> map) matrix acc !! k = Some v ->
  acc !! k = Some v \/ exists e, e ∈ matrix /\ y e = v.
Proof.
  revert acc. induction matrix as [|e matrix IH]; intros acc; simpl; [auto|].
  intros H. destruct (IH _ H) as [Hacc|(e' & Hin & Hy)].
  - destruct (decide (x e = k)) as [<-|Hne].
    + rewrite lookup_insert_eq in Hacc. injection Hacc as <-.
      right. exists e. split; [left|done].
    + rewrite lookup_insert_ne in Hacc by done. auto.
  - right. exists e'. split; [by right|done].
Qed.

Lemma positiveCounts_map (matrix : list entry) k v :
  positiveCounts matrix ->
  convertJSONMatrixIntoMap matrix !! k = Some v ->
  PrimFloat.ltb PrimFloat.zero v = true.
Proof.
  intros Hpos H. apply convertJSONMatrixIntoMap_lookup in H as [H|(e & Hin & <-)].
  - by rewrite lookup_empty in H.
  - unfold positiveCounts in Hpos. rewrite Forall_forall in Hpos. by apply Hpos.
Qed.

Lemma total_of_weights (matrixMap : gmap string float) (pairs : list string) (total : float) :
  (forall k v, matrixMap !! k = Some v -> PrimFloat.ltb PrimFloat.zero v = true) ->
  nonNeg total = true ->
  fold_left (fun total pair => addFound total (matrixMap !! pair)) pairs total
  = fold_left PrimFloat.add (map (weight matrixMap) pairs) total.
Proof.
  intros Hpos. revert total. induction pairs as [|pair pairs IH]; intros total Hnn; [done|].
  simpl. unfold weight at 2. destruct (matrixMap !! pair) as [w|] eqn:E; simpl.
  - rewrite (positive_truthy w) by eauto. apply IH, add_positive; eauto.
  - rewrite add_zero by done. by apply IH.
Qed.

End AverageFacts.

Lemma sanitizeText_string (s : string) : sanitizeText (VString s) = Ok (sanitizeString s).
Proof. unfold sanitizeText. simpl. by destruct s. Qed.

Lemma sanitizeText_Ok (test : value) (s : string) :
  sanitizeText test = Ok s -> exists sample, s = sanitizeString sample.
Proof.
  unfold sanitizeText. destruct (truthy test).
  - destruct test; try done. intros [= <-]. eauto.
  - intros [= <-]. eauto.
Qed.

(** A sanitized string has no line feed left: the replacement that
    assignScore repeats changes nothing. *)
Lemma sanitized_no_LF (test : value) (s : string) :
  sanitizeText test = Ok s -> JS.replaceChar JS.LF JS.SP s = s.
Proof.
  intros [sample ->]%sanitizeText_Ok.
  apply mapChars_id with (p := residual); [|apply sanitizeString_residual].
  intros c Hc. apply residual_plain in Hc. unfold plain in Hc.
  apply andb_true_iff in Hc as [Hc _]. apply negb_true_iff in Hc. by rewrite Hc.
Qed.

(** C2: on a table of positive counts the score is the sum, over the pairs of
    the sanitized and lowercased text in order, of the table's count for the
    pair (0 when the table has none), divided by the number of pairs; a pair
    the table lacks adds 0 and still counts in the denominator.  With no
    pair at all both sides are 0/0. *)
Theorem score_is_average (test : value) (matrix : list entry) (useCache : bool) (s : string) :
  sanitizeText test = Ok s ->
  positiveCounts matrix ->
  assignScore test matrix useCache
  = Ok (PrimFloat.div
          (Num.sum (map (weight (convertJSONMatrixIntoMap matrix)) (pairsOf s)))
          (Num.ofNat (length (pairsOf s)))).
Proof.
  intros Hs Hpos. unfold assignScore. rewrite Hs. simpl.
  rewrite (sanitized_no_LF test s Hs).
  destruct (scoreLoop_spec useCache (convertJSONMatrixIntoMap matrix) (pairsOf s))
    as [-> ->].
  unfold Num.sum. rewrite total_of_weights; [done| |done].
  intros k v. by apply positiveCounts_map.
Qed.

Lemma score_is_average_witness :
  sanitizeText (VString "ab cx") = Ok "ab cx"
  /\ positiveCounts sampleMatrix
  /\ assignScore (VString "ab cx") sampleMatrix true
     = Ok (PrimFloat.div
             (PrimFloat.add (PrimFloat.add (PrimFloat.add (PrimFloat.add 0 3) 5) 1) 0)
             4).
Proof.
  assert (Hs : sanitizeText (VString "ab cx") = Ok "ab cx") by reflexivity.
  assert (Hpos : positiveCounts sampleMatrix) by repeat constructor.
  split; [exact Hs|]. split; [exact Hpos|].
  rewrite (score_is_average (VString "ab cx") sampleMatrix true "ab cx" Hs Hpos).
  vm_compute. reflexivity.
Defined.

(** ** Validators *)

Section ValidatorFacts.

Lemma notPlainObject_false (v : value) :
  notPlainObject v = false -> exists props, v = VObject props.
Proof.
  unfold notPlainObject. destruct v; simpl; rewrite ?orb_true_r; try done. eauto.
Qed.

Lemma isType_number (v : value) : isType TNumber v = true -> exists n, v = VNumber n.
Proof. destruct v; try done. eauto. Qed.

Lemma isType_string (v : value) : isType TString v = true -> exists s, v = VString s.
Proof. destruct v; try done. eauto. Qed.

Lemma isType_function (v : value) : isType TFunction v = true -> exists f, v = VFunction f.
Proof. destruct v; try done. eauto. Qed.

Lemma isType_boolean (v : value) : isType TBoolean v = true -> exists b, v = VBool b.
Proof. destruct v; try done. eauto. Qed.

Lemma entryError_false (m : value) : entryError m = Ok false <-> wellShaped m.
Proof.
  unfold entryError, wellShaped. split.
  - destruct m as [| | | | | | |props]; try done. simpl.
    destruct (isType TString (lookupProp "x" props)) eqn:Ex; [|by simpl].
    apply isType_string in Ex as [s Ex]. rewrite Ex. simpl.
    destruct (String.length s =? 2)%nat eqn:El; [|by simpl]. simpl.
    destruct (isType TNumber (lookupProp "y" props)) eqn:Ey; [|by simpl].
    apply isType_number in Ey as [n Ey]. intros _.
    exists props, s, n. by apply Nat.eqb_eq in El.
  - intros (props & s & n & -> & Ex & El & Ey). simpl. rewrite Ex, Ey. simpl.
    by rewrite El.
Qed.

Lemma someEntryError_false (items : list value) :
  someEntryError items = Ok false <-> Forall wellShaped items.
Proof.
  induction items as [|m items IH]; simpl.
  - split; [constructor|done].
  - rewrite Forall_cons, <- IH, <- entryError_false.
    destruct (entryError m) as [[]|e]; simpl; split; try done; try tauto.
Qed.

(** The matrices isValidMatrix accepts. *)
Lemma isValidMatrix_true (v : value) :
  isValidMatrix v = Ok true <-> exists items, v = VArray items /\ Forall wellShaped items.
Proof.
  unfold isValidMatrix. split.
  - destruct v as [| | | | | |items|]; try done.
    destruct (someEntryError items) as [[]|e] eqn:E; try done.
    intros _. exists items. by apply someEntryError_false in E.
  - intros (items & -> & H). apply someEntryError_false in H. by rewrite H.
Qed.

Lemma wellShaped_parse (m : value) : wellShaped m -> is_Some (parseEntry m).
Proof. intros (props & s & n & -> & Ex & _ & Ey). simpl. by rewrite Ex, Ey. Qed.

Lemma isValidMatrix_parse (v : value) :
  isValidMatrix v = Ok true -> is_Some (parseMatrix v).
Proof.
  intros (items & -> & H)%isValidMatrix_true. simpl.
  induction H as [|m items Hm _ IH]; [done|].
  destruct (wellShaped_parse m Hm) as [e He]. destruct IH as [es Hes].
  exists (e :: es). simpl. rewrite He. simpl. by rewrite Hes.
Qed.

Lemma statsError_false (v : value) :
  notPlainObject v = false -> statsError v = Ok false -> is_Some (parseStats v).
Proof.
  intros [props ->]%notPlainObject_false. unfold statsError. simpl.
  destruct (isType TNumber (lookupProp "min" props)) eqn:E1; [|done].
  destruct (isType TNumber (lookupProp "max" props)) eqn:E2; [|done].
  destruct (isType TNumber (lookupProp "avg" props)) eqn:E3; [|done].
  apply isType_number in E1 as [a ->], E2 as [b ->], E3 as [c ->]. done.
Qed.

(** A model that isValidModel accepts has the typed view the detector
    works on. *)
Lemma isValidModel_parse (v : value) :
  isValidModel v = Ok true -> is_Some (parseModel v).
Proof.
  unfold isValidModel.
  destruct (notPlainObject v) eqn:Ev; [done|].
  apply notPlainObject_false in Ev as [props ->]. simpl.
  destruct (isValidMatrix (lookupProp "matrix" props)) as [[]|e] eqn:EM; try done.
  apply isValidMatrix_parse in EM as [entries EM]. rewrite EM. simpl.
  destruct (notPlainObject (lookupProp "baseline" props)) eqn:Eb; [done|].
  apply notPlainObject_false in Eb as [baseline ->]. simpl.
  destruct (notPlainObject (lookupProp "good" baseline)) eqn:Eg; [done|].
  destruct (statsError (lookupProp "good" baseline)) as [[]|e] eqn:Egs; try done.
  apply statsError_false in Egs as [good ->]; [|done]. simpl.
  destruct (notPlainObject (lookupProp "bad" baseline)) eqn:Ed; [done|].
  destruct (statsError (lookupProp "bad" baseline)) as [[]|e] eqn:Eds; try done.
  apply statsError_false in Eds as [bad ->]; [|done]. done.
Qed.

Lemma testConfig_Ok (config : configuration) :
  testConfig config = Ok tt ->
  isValidModel (lookupProp "model" config) = Ok true
  /\ (exists f, lookupProp "thresholdFn" config = VFunction f)
  /\ (exists b, lookupProp "useCache" config = VBool b).
Proof.
  unfold testConfig.
  destruct (isValidModel (lookupProp "model" config)) as [[]|e]; try done. simpl.
  destruct (isType TFunction (lookupProp "thresholdFn" config)) eqn:Ef; [|done].
  destruct (isType TBoolean (lookupProp "useCache" config)) eqn:Eb; [|done].
  intros _. split; [done|]. split.
  - by apply isType_function.
  - by apply isType_boolean.
Qed.

End ValidatorFacts.

Section SerialisedModels.

Lemma wellShaped_entryValue (e : entry) : wellShaped (entryValue e) <-> String.length (x e) = 2.
Proof.
  unfold wellShaped, entryValue. split.
  - intros (props & s & n & [= <-] & [= <-] & Hl & _). done.
  - intros Hl. by exists [("x", VString (x e)); ("y", VNumber (y e))], (x e), (y e).
Qed.

Lemma parseMatrix_entryValue (entries : list entry) :
  parseMatrix (VArray (map entryValue entries)) = Some entries.
Proof.
  simpl. induction entries as [|[k n] entries IH]; [done|].
  simpl in *. by rewrite IH.
Qed.

Lemma parseModel_modelValue (m : model) : parseModel (modelValue m) = Some m.
Proof.
  destruct m as [entries [a b c] [a' b' c']]. unfold parseModel, modelValue.
  cbn [lookupProp String.eqb Ascii.eqb Bool.eqb matrix baseline_good baseline_bad].
  by rewrite parseMatrix_entryValue.
Qed.

Lemma isValidMatrix_entryValue (entries : list entry) :
  isValidMatrix (VArray (map entryValue entries)) = Ok true
  <-> Forall (fun e => String.length (x e) = 2) entries.
Proof.
  rewrite isValidMatrix_true. split.
  - intros (items & [= <-] & H). rewrite Forall_map in H.
    eapply Forall_impl; [exact H|]. intros e. apply wellShaped_entryValue.
  - intros H. eexists. split; [done|]. rewrite Forall_map.
    eapply Forall_impl; [exact H|]. intros e. apply wellShaped_entryValue.
Qed.

Lemma isValidModel_modelValue (m : model) :
  isValidModel (modelValue m) = Ok true
  <-> Forall (fun e => String.length (x e) = 2) (matrix m).
Proof.
  rewrite <- isValidMatrix_entryValue.
  destruct m as [entries [a b c] [a' b' c']]. unfold isValidModel, modelValue.
  cbn [notPlainObject truthy isType typeof isArray negb orb getProp bind lookupProp
       String.eqb Ascii.eqb Bool.eqb matrix baseline_good baseline_bad statsValue
       min max avg statsError].
  destruct (isValidMatrix (VArray (map entryValue entries))) as [[]|e]; done.
Qed.

End SerialisedModels.

(** C6, as stated, fails: a count that is negative, zero, NaN or fractional
    is of type number, which is all the validators ask of it. *)
Lemma isValidMatrix_accepts_any_number :
  isValidMatrix (VArray [entryValue (Entry "ab" (-1)%float)]) = Ok true
  /\ isValidMatrix (VArray [entryValue (Entry "ab" 0%float)]) = Ok true
  /\ isValidMatrix (VArray [entryValue (Entry "ab" PrimFloat.nan)]) = Ok true
  /\ isValidMatrix (VArray [entryValue (Entry "ab" 0.5%float)]) = Ok true
  /\ isValidModel (modelValue (Model [Entry "ab" (-1)%float] (Stats 1 1 1) (Stats 0 0 0)))
     = Ok true.
Proof. repeat split; reflexivity. Qed.

(** C6, amended: isValidMatrix returns true exactly for the arrays whose
    entries are all plain objects with a two-character string x and a y of type
    number; the value of the number is not looked at.  So for entries with a
    numeric count, isValidMatrix and isValidModel depend on the keys alone. *)
Theorem isValidMatrix_checks_types_only :
  (forall v : value,
     isValidMatrix v = Ok true <-> exists items, v = VArray items /\ Forall wellShaped items)
  /\ (forall entries : list entry,
        isValidMatrix (VArray (map entryValue entries)) = Ok true
        <-> Forall (fun e => String.length (x e) = 2) entries)
  /\ (forall m : model,
        isValidModel (modelValue m) = Ok true
        <-> Forall (fun e => String.length (x e) = 2) (matrix m)).
Proof.
  split; [exact isValidMatrix_true|].
  split; [exact isValidMatrix_entryValue|exact isValidModel_modelValue].
Qed.

(** ** Detector *)

Section DetectorFacts.

Lemma mapChars_length f s : String.length (JS.mapChars f s) = String.length s.
Proof. induction s as [|c s IH]; simpl; congruence. Qed.

Lemma pairsOf_length (s : string) : length (pairsOf s) = String.length s - 1.
Proof.
  unfold pairsOf, JS.toLowerCase, JS.splitChars.
  induction s as [|c s IH]; [done|]. simpl.
  destruct s as [|c' s']; [done|]. simpl in *. rewrite IH. lia.
Qed.

Lemma pairsOf_short (s : string) : String.length (JS.toLowerCase s) < 2 -> pairsOf s = [].
Proof.
  unfold JS.toLowerCase. rewrite mapChars_length. intros H.
  apply length_zero_iff_nil. rewrite pairsOf_length. lia.
Qed.

(** With no pair the loop body never runs and the score is 0/0. *)
Lemma assignScore_zero_pairs (test : value) (matrix : list entry) (useCache : bool) (s : string) :
  sanitizeText test = Ok s ->
  String.length (JS.toLowerCase s) < 2 ->
  assignScore test matrix useCache = Ok PrimFloat.nan.
Proof.
  intros Hs Hlen. unfold assignScore. rewrite Hs. simpl.
  rewrite (sanitized_no_LF test s Hs), pairsOf_short by done. reflexivity.
Qed.

(** What detect computes once the configuration and the override have
    passed the validators. *)
Lemma detect_spec (config : configuration) (test override : value) :
  testConfig config = Ok tt ->
  (truthy override = true -> isValidModel override = Ok true) ->
  exists m f b,
    parseModel (if truthy override then override else lookupProp "model" config) = Some m
    /\ lookupProp "thresholdFn" config = VFunction f
    /\ lookupProp "useCache" config = VBool b
    /\ Detector.detect config test override
       = (let* score := assignScore test (matrix m) b in Ok (PrimFloat.leb score (f m))).
Proof.
  intros (Hmodel & [f Hf] & [b Hb])%testConfig_Ok Hoverride.
  assert (Huse : isValidModel (if truthy override then override
                               else lookupProp "model" config) = Ok true).
  { destruct (truthy override); auto. }
  destruct (isValidModel_parse _ Huse) as [m Hm].
  exists m, f, b. repeat split; try done.
  unfold Detector.detect.
  assert (Hmal : (if truthy override
                  then let* okModel := isValidModel override in Ok (negb okModel)
                  else Ok false) = Ok false).
  { destruct (truthy override); [|done]. by rewrite Hoverride. }
  rewrite Hmal. simpl. unfold testGibberish. rewrite Hm, Hf, Hb. simpl.
  by destruct b.
Qed.

(** The configuration of a detector has passed testConfig when the factory
    returns it, and every call of set leaves one that has. *)
Lemma create_valid (shipped userConfig : value) (config : configuration) :
  Detector.create shipped userConfig = Ok config -> testConfig config = Ok tt.
Proof.
  unfold Detector.create.
  destruct (truthy userConfig && negb (isType TObject userConfig)
            && negb (isArray userConfig)); [done|].
  cbv zeta.
  destruct (testConfig _) as [[]|e] eqn:E; simpl; [|done]. by intros [= <-].
Qed.

Lemma set_valid (name : string) (v : value) (config : configuration) :
  testConfig config = Ok tt -> testConfig (Detector.set name v config).2 = Ok tt.
Proof.
  intros H. unfold Detector.set.
  by destruct (testConfig (setProp name v config)) as [[]|e] eqn:E.
Qed.

Lemma set_applies (name : string) (v : value) (config : configuration) :
  testConfig (setProp name v config) = Ok tt ->
  Detector.set name v config = (Ok tt, setProp name v config)
  /\ Detector.get name (Detector.set name v config).2 = v.
Proof.
  intros H. unfold Detector.set, Detector.get. rewrite H. simpl.
  by rewrite String.eqb_refl.
Qed.

End DetectorFacts.

Lemma sampleConfig_created : Detector.create (modelValue sampleModel) VUndefined = Ok sampleConfig.
Proof. reflexivity. Qed.

(** C1, as stated, fails: the score of a text without a pair is NaN, and
    [NaN <= threshold] is false, so detect answers false. *)
Lemma detect_empty_is_false :
  Detector.detect sampleConfig (VString "") VNull = Ok false
  /\ Detector.detect sampleConfig (VString "a") VNull = Ok false.
Proof. split; reflexivity. Qed.

(** C1, amended: for every input whose sanitized, lowercased form has fewer
    than two characters the score is NaN under every table, and detect
    returns false under every valid configuration (so every model and every
    threshold function) and every override that is absent or passes
    isValidModel. *)
Theorem detect_zero_pairs (config : configuration) (test override : value) (s : string) :
  testConfig config = Ok tt ->
  (truthy override = true -> isValidModel override = Ok true) ->
  sanitizeText test = Ok s ->
  String.length (JS.toLowerCase s) < 2 ->
  (forall matrix useCache, assignScore test matrix useCache = Ok PrimFloat.nan)
  /\ Detector.detect config test override = Ok false.
Proof.
  intros Hconfig Hoverride Hs Hlen. split.
  - intros matrix useCache. by apply assignScore_zero_pairs with s.
  - destruct (detect_spec config test override Hconfig Hoverride)
      as (m & f & b & _ & _ & _ & ->).
    rewrite (assignScore_zero_pairs test (matrix m) b s Hs Hlen). simpl.
    by rewrite nan_leb.
Qed.

Lemma detect_zero_pairs_witness :
  (forall matrix useCache, assignScore (VString "A1") matrix useCache = Ok PrimFloat.nan)
  /\ Detector.detect sampleConfig (VString "A1") VNull = Ok false.
Proof.
  apply (detect_zero_pairs sampleConfig (VString "A1") VNull "A").
  - reflexivity.
  - discriminate.
  - reflexivity.
  - simpl. lia.
Defined.

(** C8: sanitizeText turns every falsy sample into the empty string and
    throws on every truthy sample that is not a string; detect, which
    sanitizes its input on the way to the score, returns on the former and
    throws on the latter. *)
Theorem sanitize_input_types (config : configuration) (sample : value) :
  testConfig config = Ok tt ->
  (truthy sample = false ->
     sanitizeText sample = Ok "" /\ returns (Detector.detect config sample VNull))
  /\ (truthy sample = true -> isType TString sample = false ->
        sanitizeText sample = Throw (Error "Input sample must be a string")
        /\ Detector.detect config sample VNull
           = Throw (Error "Input sample must be a string")).
Proof.
  intros Hconfig.
  destruct (detect_spec config sample VNull Hconfig) as (m & f & b & _ & _ & _ & ->);
    [done|].
  split.
  - intros Hfalsy.
    assert (Hs : sanitizeText sample = Ok "").
    { unfold sanitizeText. by rewrite Hfalsy. }
    split; [done|]. unfold assignScore. rewrite Hs. simpl. by eexists.
  - intros Htruthy Htype.
    assert (Hs : sanitizeText sample = Throw (Error "Input sample must be a string")).
    { unfold sanitizeText. rewrite Htruthy. by destruct sample. }
    split; [done|]. unfold assignScore. by rewrite Hs.
Qed.

Lemma sanitize_input_types_witness :
  (sanitizeText VNull = Ok "" /\ returns (Detector.detect sampleConfig VNull VNull))
  /\ (sanitizeText (VArray []) = Throw (Error "Input sample must be a string")
      /\ Detector.detect sampleConfig (VArray []) VNull
         = Throw (Error "Input sample must be a string")).
Proof.
  destruct (sanitize_input_types sampleConfig VNull eq_refl) as [Hfalsy _].
  destruct (sanitize_input_types sampleConfig (VArray []) eq_refl) as [_ Htruthy].
  split; [exact (Hfalsy eq_refl)|exact (Htruthy eq_refl eq_refl)].
Defined.

(** C9: set validates a clone of the configuration with the new value in
    place; when the clone fails validation, set throws the validation error
    and the configuration is the one before the call, so get returns what it
    returned before. *)
Theorem set_atomic (name : string) (v : value) (config : configuration) (e : exn) :
  testConfig (setProp name v config) = Throw e ->
  Detector.set name v config = (Throw e, config)
  /\ forall other, Detector.get other (Detector.set name v config).2 = Detector.get other config.
Proof.
  intros H. unfold Detector.set. rewrite H. done.
Qed.

Lemma set_atomic_witness :
  Detector.set "useCache" (VString "What?") sampleConfig
  = (Throw (Error "useCache must be a boolean"), sampleConfig)
  /\ forall other,
       Detector.get other (Detector.set "useCache" (VString "What?") sampleConfig).2
       = Detector.get other sampleConfig.
Proof.
  apply (set_atomic "useCache" (VString "What?") sampleConfig). reflexivity.
Defined.

Lemma assignScore_empty_matrix (test : value) (useCache : bool) (s : string) :
  sanitizeText test = Ok s ->
  assignScore test [] useCache
  = Ok (PrimFloat.div PrimFloat.zero (Num.ofNat (length (pairsOf s)))).
Proof.
  intros Hs. unfold assignScore. rewrite Hs. simpl.
  rewrite (sanitized_no_LF test s Hs).
  destruct (scoreLoop_spec useCache (convertJSONMatrixIntoMap []) (pairsOf s)) as [-> ->].
  do 2 f_equal. generalize PrimFloat.zero.
  induction (pairsOf s) as [|pair pairs IH]; intros total; [done|].
  simpl. unfold convertJSONMatrixIntoMap at 2. simpl. rewrite lookup_empty. apply IH.
Qed.

(** C10: the empty array is a valid matrix, so a model with an empty matrix
    and numeric baseline fields is a valid model and detect takes it as an
    override; no pair is found in it, so the total stays 0 and the score is 0
    divided by the number of pairs. *)
Theorem empty_matrix_override (config : configuration) (test : value) (s : string)
    (good bad : stats) :
  testConfig config = Ok tt ->
  sanitizeText test = Ok s ->
  isValidMatrix (VArray []) = Ok true
  /\ isValidModel (modelValue (Model [] good bad)) = Ok true
  /\ (forall pair, weight (convertJSONMatrixIntoMap []) pair = PrimFloat.zero)
  /\ (forall useCache,
        assignScore test [] useCache
        = Ok (PrimFloat.div PrimFloat.zero (Num.ofNat (length (pairsOf s)))))
  /\ exists f,
       lookupProp "thresholdFn" config = VFunction f
       /\ Detector.detect config test (modelValue (Model [] good bad))
          = Ok (PrimFloat.leb
                  (PrimFloat.div PrimFloat.zero (Num.ofNat (length (pairsOf s))))
                  (f (Model [] good bad))).
Proof.
  intros Hconfig Hs.
  assert (Hvalid : isValidModel (modelValue (Model [] good bad)) = Ok true).
  { by apply isValidModel_modelValue. }
  split; [done|]. split; [done|]. split; [done|].
  split; [intros useCache; by apply assignScore_empty_matrix|].
  destruct (detect_spec config test (modelValue (Model [] good bad)) Hconfig)
    as (m & f & b & Hm & Hf & _ & ->); [done|].
  assert (Hm' : parseModel (modelValue (Model [] good bad)) = Some m) by exact Hm.
  rewrite parseModel_modelValue in Hm'. injection Hm' as <-.
  exists f. split; [done|]. cbn [matrix].
  by rewrite (assignScore_empty_matrix test b s Hs).
Qed.

Lemma empty_matrix_override_witness :
  Detector.detect sampleConfig (VString "abc") (modelValue (Model [] (Stats 2 4 3) (Stats 0 1 0.5)))
  = Ok true.
Proof.
  destruct (empty_matrix_override sampleConfig (VString "abc") "abc"
              (Stats 2 4 3) (Stats 0 1 0.5) eq_refl eq_refl)
    as (_ & _ & _ & _ & f & Hf & ->).
  injection Hf as <-. reflexivity.
Defined.

(** ** Frequency model builder *)

Section TrainFacts.

Local Open Scope list_scope.

Implicit Types (l : list (string * nat)) (p q : string) (pairs : list string).

Lemma hitsOf_tally l p q :
  hitsOf (tally l p) q
  = if decide (q = p) then Some (S (default 0 (hitsOf l p))) else hitsOf l q.
Proof.
  induction l as [|e l IH]; simpl.
  - destruct (decide (p = q)), (decide (q = p)); congruence.
  - destruct (decide (e.1 = p)) as [He|He]; simpl.
    + destruct (decide (e.1 = q)), (decide (q = p)); congruence.
    + rewrite IH. destruct (decide (e.1 = q)), (decide (q = p)); congruence.
Qed.

Lemma tally_fresh l p : p ∉ l.*1 -> tally l p = l ++ [(p, 1)].
Proof.
  induction l as [|e l IH]; [done|]. simpl. intros H.
  apply not_elem_of_cons in H as [Hne H].
  destruct (decide (e.1 = p)); [done|]. by rewrite IH.
Qed.

Lemma tally_alter l p i :
  NoDup l.*1 -> l.*1 !! i = Some p ->
  alter (fun e => (e.1, S e.2)) i l = tally l p.
Proof.
  revert i. induction l as [|e l IH]; intros i Hnd Hi; [done|].
  simpl in Hnd. apply NoDup_cons in Hnd as [Hfresh Hnd].
  destruct i as [|i]; simpl in *.
  - injection Hi as Hi. by rewrite decide_True.
  - rewrite decide_False.
    + f_equal. by apply IH.
    + intros He. apply Hfresh. rewrite He. by apply list_elem_of_lookup_2 in Hi.
Qed.

Lemma tally_keys l p :
  (tally l p).*1 = if decide (p ∈ l.*1) then l.*1 else l.*1 ++ [p].
Proof.
  induction l as [|e l IH]; [done|]. cbn [tally].
  destruct (decide (e.1 = p)) as [He|He]; rewrite !fmap_cons; cbn [fst].
  - destruct (decide (p ∈ e.1 :: l.*1)) as [|Hn]; [done|].
    exfalso. apply Hn. rewrite He. left.
  - rewrite IH.
    destruct (decide (p ∈ l.*1)) as [Hin|Hin];
      destruct (decide (p ∈ e.1 :: l.*1)) as [Hin'|Hin']; try done.
    + exfalso. apply Hin'. by right.
    + exfalso. apply elem_of_cons in Hin' as [Heq|Hin']; [by apply He|done].
Qed.

Lemma tally_NoDup l p : NoDup l.*1 -> NoDup (tally l p).*1.
Proof.
  intros Hnd. rewrite tally_keys. destruct (decide (p ∈ l.*1)); [done|].
  apply NoDup_app. split; [done|]. split; [|apply NoDup_singleton].
  intros q Hq ->%list_elem_of_singleton. done.
Qed.

Lemma tally_sum l p : sum_list (tally l p).*2 = S (sum_list l.*2).
Proof.
  induction l as [|e l IH]; [done|]. cbn [tally].
  assert (Hcons : forall n (k : list nat), sum_list (n :: k) = n + sum_list k) by done.
  destruct (decide (e.1 = p)); rewrite !fmap_cons, !Hcons; cbn [snd]; [done|].
  rewrite IH. lia.
Qed.

Lemma trainStep_tally (st : trainState) p :
  cacheAligned st ->
  analysis (trainStep st p) = tally (analysis st) p /\ cacheAligned (trainStep st p).
Proof.
  intros [Hnd Hcache]. unfold trainStep.
  destruct (analysisCache st !! p) as [i|] eqn:E; simpl.
  - apply Hcache in E. pose proof (tally_alter _ _ _ Hnd E) as Halter.
    split; [done|]. split; simpl.
    + rewrite Halter. by apply tally_NoDup.
    + rewrite Halter, tally_keys, decide_True; [done|].
      by apply list_elem_of_lookup_2 in E.
  - assert (Hfresh : p ∉ (analysis st).*1).
    { intros [i Hi]%list_elem_of_lookup_1. apply Hcache in Hi. congruence. }
    split; [by rewrite tally_fresh|]. split; simpl.
    + rewrite <- (tally_fresh _ _ Hfresh). by apply tally_NoDup.
    + intros q i. rewrite fmap_app. simpl.
      destruct (decide (p = q)) as [<-|Hne].
      * rewrite lookup_insert_eq. split.
        -- intros [= <-]. rewrite lookup_app_r; rewrite length_fmap; [|lia].
           by rewrite Nat.sub_diag.
        -- intros Hi. f_equal. apply lookup_app_Some in Hi as [Hi|[Hge Hi]].
           ++ apply list_elem_of_lookup_2 in Hi. done.
           ++ rewrite length_fmap in Hge, Hi.
              destruct (i - length (analysis st)) eqn:Ed; [lia|].
              simpl in Hi. by rewrite lookup_nil in Hi.
      * rewrite lookup_insert_ne by done. rewrite Hcache. split.
        -- intros Hi. by apply lookup_app_l_Some.
        -- intros Hi. apply lookup_app_Some in Hi as [Hi|[Hge Hi]]; [done|].
           rewrite length_fmap in Hi.
           destruct (i - length (analysis st)) eqn:Ed; simpl in Hi; [congruence|].
           by rewrite lookup_nil in Hi.
Qed.

Lemma trainLoop_from pairs (st : trainState) :
  cacheAligned st ->
  analysis (fold_left trainStep pairs st) = fold_left tally pairs (analysis st)
  /\ cacheAligned (fold_left trainStep pairs st).
Proof.
  revert st. induction pairs as [|p pairs IH]; intros st Hst; [done|].
  simpl. destruct (trainStep_tally st p Hst) as [<- Hst']. by apply IH.
Qed.

Lemma trainLoop_tally pairs : analysis (trainLoop pairs) = fold_left tally pairs [].
Proof.
  apply (trainLoop_from pairs (TrainState [] ∅)). split; simpl; [constructor|].
  intros p i. by rewrite lookup_empty, lookup_nil.
Qed.

End TrainFacts.

Section CountFacts.

Local Open Scope list_scope.

Implicit Types (l : list (string * nat)) (p q : string) (pairs : list string).

Lemma occurrences_snoc q pairs p :
  occurrences q (pairs ++ [p]) = occurrences q pairs + (if decide (p = q) then 1 else 0).
Proof.
  unfold occurrences. rewrite filter_app, length_app. f_equal.
  rewrite filter_cons, filter_nil. by destruct (decide (p = q)).
Qed.

Lemma fold_tally_snoc pairs p :
  fold_left tally (pairs ++ [p]) [] = tally (fold_left tally pairs []) p.
Proof. by rewrite fold_left_app. Qed.

Lemma hitsOf_fold pairs q :
  hitsOf (fold_left tally pairs []) q = positiveOrNone (occurrences q pairs).
Proof.
  revert q. induction pairs as [|p pairs IH] using rev_ind; intros q; [done|].
  rewrite fold_tally_snoc, hitsOf_tally, occurrences_snoc.
  destruct (decide (q = p)) as [->|Hne].
  - rewrite IH, decide_True by done.
    destruct (occurrences p pairs); simpl; f_equal; lia.
  - rewrite IH, decide_False by done. by rewrite Nat.add_0_r.
Qed.

Lemma fold_tally_NoDup pairs : NoDup (fold_left tally pairs []).*1.
Proof.
  induction pairs as [|p pairs IH] using rev_ind; [constructor|].
  rewrite fold_tally_snoc. by apply tally_NoDup.
Qed.

Lemma fold_tally_sum pairs : sum_list (fold_left tally pairs []).*2 = length pairs.
Proof.
  induction pairs as [|p pairs IH] using rev_ind; [done|].
  rewrite fold_tally_snoc, tally_sum, IH, length_app. simpl. lia.
Qed.

Lemma fold_tally_keys pairs q : q ∈ (fold_left tally pairs []).*1 -> q ∈ pairs.
Proof.
  induction pairs as [|p pairs IH] using rev_ind; [done|].
  rewrite fold_tally_snoc, tally_keys, elem_of_app, list_elem_of_singleton.
  destruct (decide (p ∈ (fold_left tally pairs []).*1)); [auto|].
  rewrite elem_of_app, list_elem_of_singleton. intros [?|?]; auto.
Qed.

Lemma elem_of_hitsOf l q n : NoDup l.*1 -> (q, n) ∈ l <-> hitsOf l q = Some n.
Proof.
  induction l as [|[k m] l IH]; cbn [hitsOf fst snd].
  - intros _. split; [by intros ?%elem_of_nil|done].
  - rewrite fmap_cons. intros [Hfresh Hnd]%NoDup_cons. cbn [fst] in Hfresh.
    rewrite elem_of_cons, (IH Hnd). destruct (decide (k = q)) as [->|Hne].
    + split.
      * intros [[= ->]|Hin]; [done|].
        exfalso. apply Hfresh. apply (IH Hnd) in Hin.
        apply (list_elem_of_fmap_2 fst) in Hin. done.
      * intros [= ->]. by left.
    + split; [|by right]. intros [[= ? ?]|?]; [congruence|done].
Qed.

Lemma insertByHits_Permutation (a : string * nat) l : insertByHits a l ≡ₚ a :: l.
Proof.
  induction l as [|b l IH]; [done|]. simpl.
  destruct (a.2 <? b.2)%nat; [|done]. rewrite IH. apply Permutation_swap.
Qed.

Lemma sortByHits_Permutation l : sortByHits l ≡ₚ l.
Proof.
  induction l as [|a l IH]; [done|]. simpl.
  by rewrite insertByHits_Permutation, IH.
Qed.

Lemma countPairs_Permutation (s : string) :
  countPairs s ≡ₚ fold_left tally (pairsOf s) [].
Proof. unfold countPairs. by rewrite sortByHits_Permutation, trainLoop_tally. Qed.

Lemma countPairs_NoDup (s : string) : NoDup (countPairs s).*1.
Proof. rewrite countPairs_Permutation. apply fold_tally_NoDup. Qed.

Lemma countPairs_hits (s : string) p n :
  (p, n) ∈ countPairs s <-> n = occurrences p (pairsOf s) /\ 0 < n.
Proof.
  rewrite countPairs_Permutation, elem_of_hitsOf by apply fold_tally_NoDup.
  rewrite hitsOf_fold. destruct (occurrences p (pairsOf s)) as [|k]; simpl.
  - split; [done|lia].
  - split; [intros [= <-]; lia|by intros [-> _]].
Qed.

Lemma countPairs_sum (s : string) : sum_list (countPairs s).*2 = String.length s - 1.
Proof. by rewrite countPairs_Permutation, fold_tally_sum, pairsOf_length. Qed.

Lemma countPairs_short (s : string) : String.length s < 2 -> countPairs s = [].
Proof.
  intros H. unfold countPairs. rewrite pairsOf_short; [done|].
  unfold JS.toLowerCase. by rewrite mapChars_length.
Qed.

End CountFacts.

Section CalibratorFacts.

Lemma assignScore_string_returns (line : string) (matrix : list entry) (useCache : bool) :
  returns (assignScore (VString line) matrix useCache).
Proof. unfold assignScore. rewrite sanitizeText_string. simpl. by eexists. Qed.

Lemma scoreLines_returns (lines : list string) (matrix : list entry) :
  returns (scoreLines lines matrix).
Proof.
  unfold scoreLines.
  assert (H : returns (mapResult
              (fun line => assignScore (VString (JS.trim line)) matrix true) lines)).
  { induction lines as [|line lines [scores IH]]; simpl; [by eexists|].
    destruct (assignScore_string_returns (JS.trim line) matrix true) as [score ->].
    simpl. rewrite IH. simpl. by eexists. }
  destruct H as [scores ->]. simpl. by eexists.
Qed.

End CalibratorFacts.

(** C7: training returns, and the table it returns lists every pair of the
    sanitized, lowercased corpus once, with the number of its occurrences;
    the hits add up to the number of adjacent pairs, L-1 for a sanitized
    corpus of L >= 1 characters, and a sanitized corpus of fewer than two
    characters gives the empty table. *)
Theorem train_counts_pairs (sample : value) (goodLines badLines : lineSet) (s : string) :
  sanitizeText sample = Ok s ->
  exists m,
    train sample goodLines badLines = Ok m
    /\ matrix m = map toEntry (countPairs s)
    /\ NoDup (countPairs s).*1
    /\ (forall pair hits,
          (pair, hits) ∈ countPairs s <-> hits = occurrences pair (pairsOf s) /\ 0 < hits)
    /\ sum_list (countPairs s).*2 = String.length s - 1
    /\ (String.length s < 2 -> matrix m = []).
Proof.
  intros Hs. unfold train. rewrite Hs. simpl.
  destruct (scoreLines_returns (toLines goodLines) (map toEntry (countPairs s))) as [good ->].
  destruct (scoreLines_returns (toLines badLines) (map toEntry (countPairs s))) as [bad ->].
  simpl. eexists. split; [done|]. simpl.
  split; [done|]. split; [apply countPairs_NoDup|].
  split; [apply countPairs_hits|]. split; [apply countPairs_sum|].
  intros H. by rewrite countPairs_short.
Qed.

Lemma train_counts_pairs_witness :
  exists m,
    train (VString "Hello, hello!") (LinesArray ["hello"]) (LinesText "xq") = Ok m
    /\ matrix m = [Entry "he" 2; Entry "el" 2; Entry "ll" 2; Entry "lo" 2;
                   Entry "o " 2; Entry " h" 1].
Proof.
  destruct (train_counts_pairs (VString "Hello, hello!") (LinesArray ["hello"])
              (LinesText "xq") "Hello hello " eq_refl) as (m & Hm & Hmatrix & _).
  exists m. split; [exact Hm|]. rewrite Hmatrix. vm_compute. reflexivity.
Defined.

Section TrainedModels.

Lemma letterPairs_length (split : list ascii) (pair : string) :
  pair ∈ letterPairs split -> String.length pair = 2.
Proof.
  induction split as [|a split IH]; simpl; [by intros ?%elem_of_nil|].
  destruct split as [|b split]; [by intros ?%elem_of_nil|].
  intros [->|Hin]%elem_of_cons; [done|]. by apply IH.
Qed.

Lemma countPairs_keys (s : string) :
  Forall (fun e => String.length (x e) = 2) (map toEntry (countPairs s)).
Proof.
  rewrite Forall_map, Forall_forall. intros [pair hits] Hin. simpl.
  apply (list_elem_of_fmap_2 fst) in Hin. simpl in Hin.
  rewrite countPairs_Permutation in Hin. apply fold_tally_keys in Hin.
  by apply letterPairs_length in Hin.
Qed.

(** Whatever train returns passes isValidModel. *)
Lemma train_valid (sample : value) (goodLines badLines : lineSet) (m : model) :
  train sample goodLines badLines = Ok m -> isValidModel (modelValue m) = Ok true.
Proof.
  unfold train. destruct (sanitizeText sample) as [s|e]; [|done]. simpl.
  destruct (scoreLines (toLines goodLines) (map toEntry (countPairs s))) as [good|e];
    [|done]. simpl.
  destruct (scoreLines (toLines badLines) (map toEntry (countPairs s))) as [bad|e];
    [|done]. simpl.
  intros [= <-]. apply isValidModel_modelValue. apply countPairs_keys.
Qed.

End TrainedModels.

(** C5, as stated, fails: calibration on an empty line set returns, and so
    does train. *)
Lemma calibration_empty_returns :
  scoreLines [] sampleMatrix = Ok emptyStats
  /\ train (VString "ab") (LinesArray []) (LinesArray ["xq"])
     = Ok (Model [Entry "ab" 1] emptyStats (Stats 0 0 0)).
Proof. split; reflexivity. Qed.

(** C5, amended: calibration on an empty line set does not fail: it
    returns min = +Infinity, max = -Infinity and avg = NaN.  train with an
    empty array for goodLines or for badLines returns a model with that
    baseline, and the model passes isValidModel. *)
Theorem calibration_empty (sample : value) (lines : lineSet) (matrix : list entry) (s : string) :
  sanitizeText sample = Ok s ->
  scoreLines [] matrix = Ok emptyStats
  /\ exists other : stats,
       scoreLines (toLines lines) (map toEntry (countPairs s)) = Ok other
       /\ train sample (LinesArray []) lines
          = Ok (Model (map toEntry (countPairs s)) emptyStats other)
       /\ train sample lines (LinesArray [])
          = Ok (Model (map toEntry (countPairs s)) other emptyStats)
       /\ isValidModel (modelValue (Model (map toEntry (countPairs s)) emptyStats other))
          = Ok true
       /\ isValidModel (modelValue (Model (map toEntry (countPairs s)) other emptyStats))
          = Ok true.
Proof.
  intros Hs. split; [done|].
  destruct (scoreLines_returns (toLines lines) (map toEntry (countPairs s))) as [other Ho].
  exists other. split; [done|].
  assert (H1 : train sample (LinesArray []) lines
               = Ok (Model (map toEntry (countPairs s)) emptyStats other)).
  { unfold train. rewrite Hs. simpl. by rewrite Ho. }
  assert (H2 : train sample lines (LinesArray [])
               = Ok (Model (map toEntry (countPairs s)) other emptyStats)).
  { unfold train. rewrite Hs. simpl. by rewrite Ho. }
  split; [done|]. split; [done|].
  split; [exact (train_valid _ _ _ _ H1)|exact (train_valid _ _ _ _ H2)].
Qed.

Lemma calibration_empty_witness :
  train (VString "ab") (LinesArray []) (LinesText "xq")
  = Ok (Model [Entry "ab" 1] emptyStats (Stats 0 0 0)).
Proof.
  destruct (calibration_empty (VString "ab") (LinesText "xq") sampleMatrix "ab" eq_refl)
    as (_ & other & Ho & -> & _).
  vm_compute in Ho. injection Ho as <-. reflexivity.
Defined.

(** ** The earlier revision of assignScore *)

Section LegacyFacts.

(** With [modelCache] unbound, a cached call throws as soon as the text has
    a pair; an uncached call always returns. *)
Lemma legacy_unbound_cache_throws (test : string) (matrix : list entry) :
  pairsOf (JS.replaceChar JS.LF JS.SP (sanitizeString test)) <> [] ->
  Legacy.assignScore None test matrix true
  = (Throw (ReferenceError "modelCache is not defined"), None).
Proof.
  unfold Legacy.assignScore.
  destruct (pairsOf (JS.replaceChar JS.LF JS.SP (sanitizeString test))); done.
Qed.

Lemma legacy_uncached_returns (binding : option Legacy.cacheObject) (test : string)
    (matrix : list entry) :
  returns (Legacy.assignScore binding test matrix false).1
  /\ (Legacy.assignScore binding test matrix false).2 = binding.
Proof.
  unfold Legacy.assignScore.
  generalize (pairsOf (JS.replaceChar JS.LF JS.SP (sanitizeString test))).
  generalize 0 PrimFloat.zero.
  intros count total pairs. revert count total.
  induction pairs as [|pair pairs IH]; intros count total; simpl.
  - split; [by eexists|done].
  - apply IH.
Qed.

End LegacyFacts.

(** C4 on index.js.  The function reads [modelCache] before anything
    declares it.  When nothing binds the identifier, the first pair of a
    cached call throws a ReferenceError where the uncached call returns the
    score.  When something outside the call binds it, the entry that one call
    memoises is the entry the next call adds to its total, whatever matrix
    that next call is given. *)
Theorem legacy_cache_outlives_call :
  Legacy.assignScore None "ab" [Entry "ab" 3] true
  = (Throw (ReferenceError "modelCache is not defined"), None)
  /\ Legacy.assignScore None "ab" [Entry "ab" 3] false = (Ok 3%float, None)
  /\ (let afterFirst := (Legacy.assignScore (Some ∅) "ab" [Entry "ab" 3] true).2 in
      afterFirst = Some {[ "ab" := Some (Entry "ab" 3) ]}
      /\ (Legacy.assignScore afterFirst "ab" [Entry "ab" 7] true).1 = Ok 3%float
      /\ (Legacy.assignScore afterFirst "ab" [Entry "ab" 7] false).1 = Ok 7%float).
Proof.
  split; [reflexivity|]. split; [reflexivity|].
  assert (E : (Legacy.assignScore (Some ∅) "ab" [Entry "ab" 3] true).2
              = Some {[ "ab" := Some (Entry "ab" 3) ]}).
  { reflexivity. }
  cbv zeta. rewrite E. split; [done|]. split; reflexivity.
Qed.

(** * Further properties *)

(** ** NaN in the baseline *)

Section NaNFacts.

Lemma add_nan_l (a : float) : PrimFloat.add PrimFloat.nan a = PrimFloat.nan.
Proof. apply Prim2SF_inj. rewrite FloatAxioms.add_spec. reflexivity. Qed.

Lemma add_nan_r (a : float) : PrimFloat.add a PrimFloat.nan = PrimFloat.nan.
Proof.
  apply Prim2SF_inj. rewrite FloatAxioms.add_spec.
  change (Prim2SF PrimFloat.nan) with S754_nan. by destruct (Prim2SF a).
Qed.

Lemma div_nan_l (a : float) : PrimFloat.div PrimFloat.nan a = PrimFloat.nan.
Proof. apply Prim2SF_inj. rewrite FloatAxioms.div_spec. reflexivity. Qed.

Lemma leb_nan_r (a : float) : PrimFloat.leb a PrimFloat.nan = false.
Proof.
  rewrite FloatAxioms.leb_spec. change (Prim2SF PrimFloat.nan) with S754_nan.
  by destruct (Prim2SF a) as [[]|[]| |[] m e].
Qed.

Lemma min2_nan_l a : Num.min2 PrimFloat.nan a = PrimFloat.nan.
Proof. reflexivity. Qed.

Lemma min2_nan_r a : Num.min2 a PrimFloat.nan = PrimFloat.nan.
Proof.
  unfold Num.min2. change (PrimFloat.is_nan PrimFloat.nan) with true.
  by rewrite orb_true_r.
Qed.

Lemma max2_nan_l a : Num.max2 PrimFloat.nan a = PrimFloat.nan.
Proof. reflexivity. Qed.

Lemma max2_nan_r a : Num.max2 a PrimFloat.nan = PrimFloat.nan.
Proof.
  unfold Num.max2. change (PrimFloat.is_nan PrimFloat.nan) with true.
  by rewrite orb_true_r.
Qed.

(** A fold of an operation that NaN absorbs is NaN as soon as NaN is among
    the operands. *)
Lemma fold_absorbs (op : float -> float -> float) (l : list float) (a : float) :
  (forall b, op PrimFloat.nan b = PrimFloat.nan) ->
  (forall b, op b PrimFloat.nan = PrimFloat.nan) ->
  a = PrimFloat.nan \/ PrimFloat.nan ∈ l ->
  fold_left op l a = PrimFloat.nan.
Proof.
  intros Hl Hr. revert a. induction l as [|b l IH]; intros a [Ha|Hin]; simpl.
  - done.
  - by apply elem_of_nil in Hin.
  - apply IH. left. by rewrite Ha, Hl.
  - apply elem_of_cons in Hin as [<-|Hin]; apply IH; [left; apply Hr|by right].
Qed.

Lemma mapResult_Ok {A B : Type} (f : A -> result B) (l : list A) :
  (forall a, a ∈ l -> returns (f a)) ->
  exists bs, mapResult f l = Ok bs
             /\ forall a b, a ∈ l -> f a = Ok b -> b ∈ bs.
Proof.
  induction l as [|a l IH]; intros H; simpl.
  - exists []. split; [done|]. intros a b Ha. by apply elem_of_nil in Ha.
  - destruct (H a) as [b Hb]; [left|].
    destruct IH as (bs & Hbs & Hin); [intros a' Ha'; apply H; by right|].
    exists (b :: bs). rewrite Hb. simpl. rewrite Hbs. simpl. split; [done|].
    intros a' b' [->|Ha']%elem_of_cons Hf.
    + rewrite Hb in Hf. injection Hf as <-. left.
    + right. by apply Hin with a'.
Qed.

Lemma scoreLines_blank (lines : list string) (matrix : list entry) (line : string) :
  line ∈ lines -> blankLine line ->
  scoreLines lines matrix = Ok (Stats PrimFloat.nan PrimFloat.nan PrimFloat.nan).
Proof.
  intros Hin Hblank. unfold scoreLines.
  destruct (mapResult_Ok
              (fun line => assignScore (VString (JS.trim line)) matrix true) lines)
    as (scores & -> & Hscores).
  { intros a _. apply assignScore_string_returns. }
  assert (Hnan : PrimFloat.nan ∈ scores).
  { apply (Hscores line _ Hin).
    apply assignScore_zero_pairs with (sanitizeString (JS.trim line)).
    - apply sanitizeText_string.
    - unfold JS.toLowerCase. by rewrite mapChars_length. }
  simpl. unfold Num.Math_min, Num.Math_max, Num.sum.
  rewrite (fold_absorbs Num.min2), (fold_absorbs Num.max2), (fold_absorbs PrimFloat.add);
    auto using min2_nan_l, min2_nan_r, max2_nan_l, max2_nan_r, add_nan_l, add_nan_r.
  by rewrite div_nan_l.
Qed.

End NaNFacts.

(** X1: one blank line is enough for the aggregate of a line set to be NaN
    throughout: its score is 0/0, and Math.min, Math.max and the sum all
    return NaN once NaN is among their operands. *)
Theorem calibration_blank_line (lines : list string) (matrix : list entry) (line : string) :
  line ∈ lines -> blankLine line ->
  scoreLines lines matrix = Ok (Stats PrimFloat.nan PrimFloat.nan PrimFloat.nan).
Proof. apply scoreLines_blank. Qed.

Lemma calibration_blank_line_witness :
  scoreLines ["hello world"; ""; "good day"] sampleMatrix
  = Ok (Stats PrimFloat.nan PrimFloat.nan PrimFloat.nan).
Proof.
  apply (calibration_blank_line _ _ "").
  - right. left.
  - unfold blankLine. simpl. lia.
Defined.

Section BlankLineFacts.

Local Open Scope list_scope.

(** A text that ends with the separator has an empty last piece. *)
Lemma splitOn_trailing (d : ascii) (text : string) :
  exists piece pieces,
    JS.splitOn d (text ++ String d EmptyString)%string = piece :: pieces ++ [EmptyString].
Proof.
  assert (E : JS.isChar d d = true) by by apply isChar_true.
  induction text as [|c text (piece & pieces & IH)]; simpl.
  - rewrite E. by exists EmptyString, [].
  - rewrite IH. destruct (JS.isChar d c).
    + by exists EmptyString, (piece :: pieces).
    + by exists (String c piece), pieces.
Qed.

Lemma toLines_trailing_newline (text : string) :
  exists line, line ∈ toLines (LinesText (text ++ String JS.LF EmptyString)%string)
               /\ blankLine line.
Proof.
  exists EmptyString. split; [|unfold blankLine; simpl; lia].
  destruct (splitOn_trailing JS.LF text) as (piece & pieces & E).
  unfold toLines. rewrite E. apply (list_elem_of_fmap_2 JS.trim _ EmptyString).
  right. apply elem_of_app. right. left.
Qed.

Lemma calculateThreshold_nan (m : model) :
  min (baseline_good m) = PrimFloat.nan \/ max (baseline_bad m) = PrimFloat.nan ->
  calculateThreshold m = PrimFloat.nan.
Proof.
  unfold calculateThreshold. intros [-> | ->]; by rewrite ?add_nan_l, ?add_nan_r, div_nan_l.
Qed.

Lemma train_baseline (sample : value) (goodLines badLines : lineSet) (m : model) :
  train sample goodLines badLines = Ok m ->
  scoreLines (toLines goodLines) (matrix m) = Ok (baseline_good m)
  /\ scoreLines (toLines badLines) (matrix m) = Ok (baseline_bad m).
Proof.
  unfold train. destruct (sanitizeText sample) as [s|e]; [|done]. simpl.
  destruct (scoreLines (toLines goodLines) _) as [good|e] eqn:Eg; [|done]. simpl.
  destruct (scoreLines (toLines badLines) _) as [bad|e] eqn:Eb; [|done]. simpl.
  by intros [= <-].
Qed.

End BlankLineFacts.

(** X2: a blank line among goodLines or badLines (the empty last line of a
    text that ends with a line feed, for one) makes the trained baseline NaN,
    the default threshold NaN with it, and detect answer false on every
    text, gibberish or not. *)
Theorem blank_line_disables_detection (sample test : value) (goodLines badLines : lineSet)
    (m : model) (config : configuration) (line s : string) :
  train sample goodLines badLines = Ok m ->
  line ∈ toLines goodLines \/ line ∈ toLines badLines ->
  blankLine line ->
  testConfig config = Ok tt ->
  lookupProp "model" config = modelValue m ->
  lookupProp "thresholdFn" config = VFunction calculateThreshold ->
  sanitizeText test = Ok s ->
  calculateThreshold m = PrimFloat.nan
  /\ Detector.detect config test VNull = Ok false.
Proof.
  intros Htrain Hin Hblank Hconfig Hmodel Hthreshold Hs.
  destruct (train_baseline _ _ _ _ Htrain) as [Hgood Hbad].
  assert (Hnan : calculateThreshold m = PrimFloat.nan).
  { apply calculateThreshold_nan. destruct Hin as [Hin|Hin].
    - left. rewrite (scoreLines_blank _ (matrix m) line Hin Hblank) in Hgood.
      by injection Hgood as <-.
    - right. rewrite (scoreLines_blank _ (matrix m) line Hin Hblank) in Hbad.
      by injection Hbad as <-. }
  split; [done|].
  destruct (detect_spec config test VNull Hconfig) as (m' & f & b & Hm' & Hf & _ & ->);
    [done|].
  simpl in Hm'. rewrite Hmodel, parseModel_modelValue in Hm'. injection Hm' as <-.
  rewrite Hthreshold in Hf. injection Hf as <-.
  unfold assignScore. rewrite Hs. simpl. by rewrite Hnan, leb_nan_r.
Qed.

Lemma blank_line_disables_detection_witness :
  exists m,
    train (VString "hello world") (LinesText ("hello" ++ String JS.LF "")) (LinesArray ["xq"])
    = Ok m
    /\ Detector.detect [("model", modelValue m);
                        ("thresholdFn", VFunction calculateThreshold);
                        ("useCache", VBool true)] (VString "hello") VNull = Ok false.
Proof.
  destruct (train (VString "hello world") (LinesText ("hello" ++ String JS.LF ""))
              (LinesArray ["xq"])) as [m|e] eqn:Htrain; [|by vm_compute in Htrain].
  exists m. split; [done|].
  refine (proj2 (blank_line_disables_detection (VString "hello world") (VString "hello")
            _ _ m [("model", modelValue m); ("thresholdFn", VFunction calculateThreshold);
                   ("useCache", VBool true)]
            "" "hello" Htrain _ _ _ eq_refl eq_refl eq_refl)).
  - left. vm_compute. right. left.
  - unfold blankLine. simpl. lia.
  - vm_compute in Htrain. injection Htrain as <-. reflexivity.
Defined.

(** ** The detector object *)

Section DetectorObjectFacts.

Local Open Scope list_scope.

Lemma assignScore_flag (test : value) (matrix : list entry) (b b' : bool) :
  assignScore test matrix b = assignScore test matrix b'.
Proof.
  pose proof (assignScore_cache_transparent test matrix).
  destruct b, b'; congruence.
Qed.



Lemma lookupProp_app (name : string) (props rest : list (string * value)) :
  lookupProp name (props ++ rest)
  = if decide (name ∈ props.*1) then lookupProp name props else lookupProp name rest.
Proof.
  induction props as [|[k v] props IH]; [done|].
  rewrite fmap_cons. cbn [lookupProp app fst]. destruct (String.eqb k name) eqn:E.
  - apply String.eqb_eq in E as ->. rewrite decide_True; [done|left].
  - apply String.eqb_neq in E. rewrite IH.
    destruct (decide (name ∈ props.*1)) as [Hin|Hin].
    + rewrite decide_True; [done|by right].
    + rewrite decide_False; [done|]. rewrite not_elem_of_cons. split; [congruence|done].
Qed.

Lemma testConfig_reads (config config' : configuration) :
  lookupProp "model" config' = lookupProp "model" config ->
  lookupProp "thresholdFn" config' = lookupProp "thresholdFn" config ->
  lookupProp "useCache" config' = lookupProp "useCache" config ->
  testConfig config' = testConfig config.
Proof. unfold testConfig. by intros -> -> ->. Qed.

Lemma detect_reads (config config' : configuration) (test override : value) (b b' : bool) :
  lookupProp "model" config' = lookupProp "model" config ->
  lookupProp "thresholdFn" config' = lookupProp "thresholdFn" config ->
  lookupProp "useCache" config = VBool b ->
  lookupProp "useCache" config' = VBool b' ->
  Detector.detect config' test override = Detector.detect config test override.
Proof.
  intros Hm Hf Hb Hb'. unfold Detector.detect, testGibberish.
  rewrite Hm, Hf, Hb, Hb'. simpl.
  destruct (if truthy override
            then let* okModel := isValidModel override in Ok (negb okModel)
            else Ok false) as [[]|e]; simpl; try done.
  destruct (parseModel _) as [typed|]; [|done].
  by rewrite (assignScore_flag test (matrix typed) b' b).
Qed.

End DetectorObjectFacts.

(** X3: the configuration of a detector passes testConfig for as long as
    the detector lives: when the factory returns it, and after every call of
    set, whether the call throws or not. *)
Theorem configuration_stays_valid (shipped userConfig : value) (config : configuration)
    (calls : list (string * value)) :
  Detector.create shipped userConfig = Ok config ->
  testConfig (applySets calls config) = Ok tt.
Proof.
  intros Hcreate%create_valid. revert config Hcreate. unfold applySets.
  induction calls as [|[name v] calls IH]; intros config Hvalid; [done|].
  simpl. apply IH. by apply set_valid.
Qed.

Lemma configuration_stays_valid_witness :
  testConfig (applySets [("useCache", VBool false); ("model", VString "moo");
                         ("thresholdFn", VFunction (fun _ => 42%float))] sampleConfig)
  = Ok tt.
Proof.
  apply (configuration_stays_valid (modelValue sampleModel) VUndefined). reflexivity.
Defined.



(** X5: the answer of detect does not depend on the useCache setting:
    after set("useCache", b), for either b, detect returns or throws what it
    did before, on every text and every override. *)
Theorem detect_ignores_useCache (config : configuration) (b : bool) (test override : value) :
  testConfig config = Ok tt ->
  (Detector.set "useCache" (VBool b) config).1 = Ok tt
  /\ Detector.detect (Detector.set "useCache" (VBool b) config).2 test override
     = Detector.detect config test override.
Proof.
  intros Hconfig.
  destruct (testConfig_Ok config Hconfig) as (Hmodel & [f Hf] & [b0 Hb0]).
  assert (Hset : testConfig (setProp "useCache" (VBool b) config) = Ok tt).
  { unfold testConfig, setProp. simpl. by rewrite Hmodel, Hf. }
  unfold Detector.set. rewrite Hset. simpl. split; [done|].
  by apply detect_reads with b0 b.
Qed.

Lemma detect_ignores_useCache_witness :
  Detector.detect (Detector.set "useCache" (VBool false) sampleConfig).2
                  (VString "ab cx") VNull
  = Detector.detect sampleConfig (VString "ab cx") VNull.
Proof.
  exact (proj2 (detect_ignores_useCache sampleConfig false (VString "ab cx") VNull eq_refl)).
Defined.

(** X6: detect refuses, before it looks at the text, every truthy override
    that is not a plain object with an array under matrix: strings, numbers,
    arrays, functions, and objects such as one without a matrix property. *)
Theorem detect_malformed_override (config : configuration) (test override : value) :
  truthy override = true ->
  (forall props, override = VObject props -> isArray (lookupProp "matrix" props) = false) ->
  isValidModel override = Ok false
  /\ Detector.detect config test override
     = Throw (Error "Malformed learning model provided").
Proof.
  intros Htruthy Hmatrix.
  assert (H : isValidModel override = Ok false).
  { unfold isValidModel. destruct (notPlainObject override) eqn:E; [done|].
    apply notPlainObject_false in E as [props ->]. simpl.
    specialize (Hmatrix props eq_refl).
    by destruct (lookupProp "matrix" props). }
  split; [done|]. unfold Detector.detect. by rewrite Htruthy, H.
Qed.

Lemma detect_malformed_override_witness :
  Detector.detect sampleConfig (VString "hello") (VObject [("cowsGo", VString "moo")])
  = Throw (Error "Malformed learning model provided").
Proof.
  refine (proj2 (detect_malformed_override sampleConfig (VString "hello")
                   (VObject [("cowsGo", VString "moo")]) eq_refl _)).
  intros props [= <-]. reflexivity.
Defined.

Section PublicScoreFacts.

Lemma isValidModel_matrix (props : list (string * value)) :
  isValidModel (VObject props) = Ok true ->
  isValidMatrix (lookupProp "matrix" props) = Ok true.
Proof.
  unfold isValidModel. simpl.
  by destruct (isValidMatrix (lookupProp "matrix" props)) as [[]|e].
Qed.

Lemma parseModel_matrix (v : value) (m : model) :
  parseModel v = Some m ->
  exists props, v = VObject props /\ parseMatrix (lookupProp "matrix" props) = Some (matrix m).
Proof.
  unfold parseModel. destruct v as [| | | | | | |props]; try done.
  destruct (parseMatrix (lookupProp "matrix" props)) as [entries|] eqn:E; [|done].
  destruct (lookupProp "baseline" props) as [| | | | | | |baseline]; try done.
  destruct (parseStats (lookupProp "good" baseline)) as [good|]; [|done].
  destruct (parseStats (lookupProp "bad" baseline)) as [bad|]; [|done].
  intros [= <-]. by exists props.
Qed.

End PublicScoreFacts.

(** X7: the assignScore of the detector object takes a whole model where a
    matrix is expected: handed a value that passes isValidModel, it scores
    against the matrix of that model, as if the matrix had been handed over. *)
Theorem assignScore_accepts_model (config : configuration) (test : value)
    (props : list (string * value)) :
  isValidModel (VObject props) = Ok true ->
  Detector.assignScore config test (VObject props)
  = Detector.assignScore config test (lookupProp "matrix" props).
Proof.
  intros Hmodel. pose proof (isValidModel_matrix props Hmodel) as Hmatrix.
  unfold Detector.assignScore.
  change (truthy (VObject props)) with true.
  change (isValidMatrix (VObject props)) with (@Ok bool false).
  cbn [bind negb]. rewrite Hmodel, Hmatrix. cbn [bind negb getProp].
  destruct (truthy (lookupProp "matrix" props)) eqn:E; cbn [bind negb]; by rewrite ?E.
Qed.

Lemma assignScore_accepts_model_witness :
  Detector.assignScore sampleConfig (VString "ab cx")
    (modelValue (Model [Entry "ab" 7] (Stats 1 1 1) (Stats 0 0 0)))
  = Detector.assignScore sampleConfig (VString "ab cx") (VArray [entryValue (Entry "ab" 7)]).
Proof.
  apply (assignScore_accepts_model sampleConfig (VString "ab cx")). reflexivity.
Defined.

(** X8: without an override (any falsy second argument) the assignScore of
    the detector object scores against the matrix of the configured model;
    with a truthy override that is neither an array nor a plain object with an
    array under matrix it throws, whatever the text. *)
Theorem assignScore_override (config : configuration) (test override : value) :
  testConfig config = Ok tt ->
  exists m,
    parseModel (lookupProp "model" config) = Some m
    /\ (truthy override = false ->
        Detector.assignScore config test override = assignScore test (matrix m) true)
    /\ (truthy override = true -> isArray override = false ->
        (forall props, override = VObject props ->
                       isArray (lookupProp "matrix" props) = false) ->
        Detector.assignScore config test override
        = Throw (Error "Malformed matrix provided")).
Proof.
  intros (Hmodel & _ & [b Hb])%testConfig_Ok.
  destruct (isValidModel_parse _ Hmodel) as [m Hm]. exists m. split; [done|].
  destruct (parseModel_matrix _ _ Hm) as (props & Hprops & Hmatrix).
  unfold Detector.assignScore. split.
  - intros Hfalsy. rewrite Hfalsy. cbn [bind]. rewrite Hfalsy, Hprops.
    cbn [getProp bind]. rewrite Hmatrix, Hb. apply assignScore_flag.
  - intros Htruthy Harray Hobject. rewrite Htruthy.
    assert (E1 : isValidMatrix override = Ok false) by by destruct override.
    assert (E2 : isValidModel override = Ok false).
    { unfold isValidModel. destruct (notPlainObject override) eqn:E; [done|].
      apply notPlainObject_false in E as [props' ->]. simpl.
      specialize (Hobject props' eq_refl). by destruct (lookupProp "matrix" props'). }
    by rewrite E1, E2.
Qed.

Lemma assignScore_override_witness :
  Detector.assignScore sampleConfig (VString "ab cx") VUndefined
  = assignScore (VString "ab cx") sampleMatrix true
  /\ Detector.assignScore sampleConfig (VString "ab cx") (VString "matrix")
     = Throw (Error "Malformed matrix provided").
Proof.
  destruct (assignScore_override sampleConfig (VString "ab cx") VUndefined eq_refl)
    as (m & Hm & Hnone & _).
  destruct (assignScore_override sampleConfig (VString "ab cx") (VString "matrix") eq_refl)
    as (_ & _ & _ & Hbad).
  injection Hm as <-. split; [exact (Hnone eq_refl)|].
  apply Hbad; [reflexivity|reflexivity|discriminate].
Defined.

(** ** The factory *)

(** X9: the factory throws on a truthy configuration argument that is not
    an object (a string, a number, true, a function), and takes a falsy one
    (null, false, 0, the empty string) as it takes a missing one. *)
Theorem create_config_argument (shipped config : value) :
  (truthy config = true -> isType TObject config = false ->
   Detector.create shipped config = Throw (Error "config argument must be an object"))
  /\ (truthy config = false ->
      Detector.create shipped config = Detector.create shipped VUndefined).
Proof.
  unfold Detector.create. split.
  - intros -> Htype. rewrite Htype. by destruct config.
  - intros Hfalsy. rewrite Hfalsy. simpl. by destruct config.
Qed.

(** X10: the configuration the factory returns holds, under every name that
    is a property of the argument or one of model, thresholdFn and useCache,
    the value the argument gives to that name if it has the property, and the
    default otherwise: the shipped model, calculateThreshold and true. *)
Theorem create_merges (shipped : value) (props : list (string * value))
    (config : configuration) (name : string) :
  Detector.create shipped (VObject props) = Ok config ->
  name ∈ props.*1 \/ name ∈ ["model"; "thresholdFn"; "useCache"] ->
  Detector.get name config
  = if decide (name ∈ props.*1) then lookupProp name props
    else lookupProp name [("model", shipped); ("thresholdFn", VFunction calculateThreshold);
                          ("useCache", VBool true)].
Proof.
  unfold Detector.create, Detector.get. simpl.
  destruct (testConfig _) as [[]|e]; simpl; [|done].
  intros [= <-] _. apply lookupProp_app.
Qed.

Lemma create_merges_witness :
  exists config,
    Detector.create (modelValue sampleModel) (VObject [("useCache", VBool false)]) = Ok config
    /\ Detector.get "useCache" config = VBool false
    /\ Detector.get "model" config = modelValue sampleModel.
Proof.
  eexists. split; [reflexivity|]. split.
  - apply (create_merges (modelValue sampleModel) [("useCache", VBool false)] _ "useCache");
      [reflexivity|]. left. by apply (bool_decide_unpack _).
  - apply (create_merges (modelValue sampleModel) [("useCache", VBool false)] _ "model");
      [reflexivity|]. right. by apply (bool_decide_unpack _).
Defined.

(** ** The sanitizer *)

Section SanitizerRangeFacts.

Import JS.

Ltac all_chars c := destruct c as [[] [] [] [] [] [] [] []]; vm_compute; try done.

Lemma append_length (s t : string) :
  String.length (s ++ t)%string = String.length s + String.length t.
Proof. induction s as [|c s IH]; simpl; [done|by rewrite IH]. Qed.

Lemma replaceCRLF_length (s : string) : String.length (replaceCRLF s) <= String.length s.
Proof.
  assert (H : forall s, String.length (replaceCRLF s) <= String.length s
                        /\ forall c, String.length (replaceCRLF (String c s))
                                     <= S (String.length s)).
  { clear s. induction s as [|c' s [IH1 IH2]].
    - split; [done|]. intros c. simpl. lia.
    - split; [apply IH2|]. intros c.
      change (replaceCRLF (String c (String c' s)))
        with (if isChar CR c && isChar LF c' then String SP (replaceCRLF s)
              else String c (replaceCRLF (String c' s))).
      destruct (isChar CR c && isChar LF c'); cbn [String.length].
      + lia.
      + specialize (IH2 c'). lia. }
  apply H.
Qed.

Lemma filterChars_length keep (s : string) :
  String.length (filterChars keep s) <= String.length s.
Proof.
  induction s as [|c s IH]; [done|]. simpl. destruct (keep c); simpl; lia.
Qed.

Lemma latinChar_length (c : ascii) : String.length (latinChar c) <= 1.
Proof. all_chars c; lia. Qed.

Lemma convertToLatinEquivalent_length (s : string) :
  String.length (convertToLatinEquivalent s) <= String.length s.
Proof.
  induction s as [|c s IH]; [done|].
  rewrite convertToLatinEquivalent_cons, append_length.
  pose proof (latinChar_length c). simpl. lia.
Qed.

Lemma sanitizeString_length (s : string) :
  String.length (sanitizeString s) <= String.length s.
Proof.
  unfold sanitizeString.
  etrans; [apply filterChars_length|].
  etrans; [apply convertToLatinEquivalent_length|].
  etrans; [apply collapseSpaces_length|].
  unfold replaceChar. rewrite !mapChars_length. apply replaceCRLF_length.
Qed.

End SanitizerRangeFacts.

(** X11: sanitizing never makes a text longer, so a text has at most as many
    adjacent pairs to score or to train on as it has characters, less one. *)
Theorem sanitize_never_grows (s : string) :
  String.length (sanitizeString s) <= String.length s
  /\ length (pairsOf (sanitizeString s)) <= String.length s - 1.
Proof.
  pose proof (sanitizeString_length s). split; [done|].
  rewrite pairsOf_length. lia.
Qed.

(** X12: what sanitizeText returns holds only ASCII characters that are no
    digit, none of the punctuation of the noise pattern, no line feed and no
    tab; and the strings it returns unchanged are exactly the strings of such
    characters without two adjacent spaces. *)
Theorem sanitize_range_and_fixed_points (s : string) :
  JS.allChars residual (sanitizeString s) = true
  /\ (sanitizeString s = s <-> JS.allChars residual s = true /\ hasDoubleSpace s = false).
Proof.
  split; [apply sanitizeString_residual|]. split.
  - intros E. assert (Hres : JS.allChars residual s = true).
    { rewrite <- E. apply sanitizeString_residual. }
    split; [done|]. apply collapseSpaces_fixed.
    by rewrite <- (sanitizeString_on_residual s Hres).
  - intros [Hres Hdouble]. rewrite (sanitizeString_on_residual s Hres).
    by apply collapseSpaces_fixed.
Qed.

Section CaseFacts.

Import JS.

Ltac all_chars c := destruct c as [[] [] [] [] [] [] [] []]; vm_compute; try done.

Lemma lowerChar_CR c : isChar CR (lowerChar c) = isChar CR c.
Proof. all_chars c. Qed.
Lemma lowerChar_LF c : isChar LF (lowerChar c) = isChar LF c.
Proof. all_chars c. Qed.
Lemma lowerChar_TAB c : isChar TAB (lowerChar c) = isChar TAB c.
Proof. all_chars c. Qed.
Lemma lowerChar_SP c : isChar SP (lowerChar c) = isChar SP c.
Proof. all_chars c. Qed.
Lemma lowerChar_terminator c : isTerminator (lowerChar c) = isTerminator c.
Proof. all_chars c. Qed.
Lemma lowerChar_noise c : isNoise (lowerChar c) = isNoise c.
Proof. all_chars c. Qed.
Lemma lowerChar_idempotent c : lowerChar (lowerChar c) = lowerChar c.
Proof. all_chars c. Qed.
Lemma lowerChar_latin c : latinChar (lowerChar c) = toLowerCase (latinChar c).
Proof. all_chars c. Qed.

Lemma toLowerCase_cons c s : toLowerCase (String c s) = String (lowerChar c) (toLowerCase s).
Proof. done. Qed.

Lemma toLowerCase_app s t :
  toLowerCase (s ++ t)%string = (toLowerCase s ++ toLowerCase t)%string.
Proof.
  unfold toLowerCase. induction s as [|c s IH]; simpl; [done|]. by rewrite IH.
Qed.

Lemma toLowerCase_idempotent s : toLowerCase (toLowerCase s) = toLowerCase s.
Proof.
  induction s as [|c s IH]; [done|].
  rewrite !toLowerCase_cons, lowerChar_idempotent. by rewrite IH.
Qed.

Lemma replaceCRLF_lower s : replaceCRLF (toLowerCase s) = toLowerCase (replaceCRLF s).
Proof.
  assert (H : forall s, replaceCRLF (toLowerCase s) = toLowerCase (replaceCRLF s)
                        /\ forall c, replaceCRLF (toLowerCase (String c s))
                                     = toLowerCase (replaceCRLF (String c s))).
  { clear s. induction s as [|c' s [IH1 IH2]].
    - by split.
    - split; [apply IH2|]. intros c. rewrite !toLowerCase_cons.
      change (replaceCRLF (String (lowerChar c) (String (lowerChar c') (toLowerCase s))))
        with (if isChar CR (lowerChar c) && isChar LF (lowerChar c')
              then String SP (replaceCRLF (toLowerCase s))
              else String (lowerChar c)
                     (replaceCRLF (String (lowerChar c') (toLowerCase s)))).
      change (replaceCRLF (String c (String c' s)))
        with (if isChar CR c && isChar LF c' then String SP (replaceCRLF s)
              else String c (replaceCRLF (String c' s))).
      rewrite lowerChar_CR, lowerChar_LF.
      destruct (isChar CR c && isChar LF c'); rewrite toLowerCase_cons.
      + by rewrite IH1.
      + f_equal. rewrite <- toLowerCase_cons. apply IH2. }
  apply H.
Qed.

Lemma mapChars_lower (f : ascii -> ascii) s :
  (forall c, f (lowerChar c) = lowerChar (f c)) ->
  mapChars f (toLowerCase s) = toLowerCase (mapChars f s).
Proof.
  intros Hf. unfold toLowerCase. induction s as [|c s IH]; [done|].
  simpl. by rewrite Hf, IH.
Qed.

Lemma replaceChar_lower d s :
  (forall c, isChar d (lowerChar c) = isChar d c) ->
  replaceChar d SP (toLowerCase s) = toLowerCase (replaceChar d SP s).
Proof.
  intros Hd. apply mapChars_lower. intros c. rewrite Hd. by destruct (isChar d c).
Qed.

Lemma collapseSpaces_lower s :
  collapseSpaces (toLowerCase s) = toLowerCase (collapseSpaces s).
Proof.
  induction s as [|c s IH]; [done|].
  destruct s as [|c' s']; [done|]. rewrite !toLowerCase_cons in *.
  change (collapseSpaces (String (lowerChar c) (String (lowerChar c') (toLowerCase s'))))
    with (if isChar SP (lowerChar c) && isChar SP (lowerChar c')
          then collapseSpaces (String (lowerChar c') (toLowerCase s'))
          else String (lowerChar c)
                 (collapseSpaces (String (lowerChar c') (toLowerCase s')))).
  change (collapseSpaces (String c (String c' s')))
    with (if isChar SP c && isChar SP c' then collapseSpaces (String c' s')
          else String c (collapseSpaces (String c' s'))).
  rewrite !lowerChar_SP, IH.
  by destruct (isChar SP c && isChar SP c').
Qed.

Lemma convertToLatinEquivalent_lower s :
  convertToLatinEquivalent (toLowerCase s) = toLowerCase (convertToLatinEquivalent s).
Proof.
  induction s as [|c s IH]; [done|].
  rewrite toLowerCase_cons, !convertToLatinEquivalent_cons, toLowerCase_app.
  by rewrite IH, lowerChar_latin.
Qed.

Lemma filterNoise_lower s :
  filterChars (fun c => negb (isNoise c)) (toLowerCase s)
  = toLowerCase (filterChars (fun c => negb (isNoise c)) s).
Proof.
  unfold toLowerCase. induction s as [|c s IH]; [done|]. simpl.
  rewrite lowerChar_noise. destruct (isNoise c); simpl; by rewrite IH.
Qed.

Lemma sanitizeString_lower s :
  sanitizeString (toLowerCase s) = toLowerCase (sanitizeString s).
Proof.
  unfold sanitizeString.
  rewrite replaceCRLF_lower.
  rewrite (replaceChar_lower LF) by apply lowerChar_LF.
  rewrite (replaceChar_lower TAB) by apply lowerChar_TAB.
  rewrite (mapChars_lower (fun c => if isTerminator c then SP else c)).
  - by rewrite collapseSpaces_lower, convertToLatinEquivalent_lower, filterNoise_lower.
  - intros c. rewrite lowerChar_terminator. by destruct (isTerminator c).
Qed.

Lemma pairsOf_lower s : pairsOf (toLowerCase s) = pairsOf s.
Proof. unfold pairsOf. by rewrite toLowerCase_idempotent. Qed.

End CaseFacts.

(** X13: scoring and training do not see the case of letters: a text and its
    lowercase form have the same pairs, the same score against every matrix,
    and train the same table. *)
Theorem case_insensitive (s : string) (matrix : list entry) (useCache : bool) :
  pairsOf (sanitizeString (JS.toLowerCase s)) = pairsOf (sanitizeString s)
  /\ assignScore (VString (JS.toLowerCase s)) matrix useCache
     = assignScore (VString s) matrix useCache
  /\ (forall goodLines badLines,
        train (VString (JS.toLowerCase s)) goodLines badLines
        = train (VString s) goodLines badLines).
Proof.
  assert (E : pairsOf (sanitizeString (JS.toLowerCase s)) = pairsOf (sanitizeString s)).
  { by rewrite sanitizeString_lower, pairsOf_lower. }
  split; [done|]. split.
  - unfold assignScore. rewrite !sanitizeText_string. simpl.
    rewrite (sanitized_no_LF _ _ (sanitizeText_string (JS.toLowerCase s))).
    rewrite (sanitized_no_LF _ _ (sanitizeText_string s)).
    by rewrite E.
  - intros goodLines badLines. unfold train, countPairs.
    rewrite !sanitizeText_string. simpl. by rewrite E.
Qed.

(** ** The matrix as a map *)

Section MatrixMapFacts.

Local Open Scope list_scope.

Lemma convertJSONMatrixIntoMap_snoc (matrix : list entry) (e : entry) :
  convertJSONMatrixIntoMap (matrix ++ [e]) = <[x e := y e]> (convertJSONMatrixIntoMap matrix).
Proof. unfold convertJSONMatrixIntoMap. by rewrite fold_left_app. Qed.

Lemma convertJSONMatrixIntoMap_find (matrix : list entry) (k : string) :
  convertJSONMatrixIntoMap matrix !! k = y <$> Legacy.find (reverse matrix) k.
Proof.
  induction matrix as [|e matrix IH] using rev_ind; [done|].
  rewrite convertJSONMatrixIntoMap_snoc, reverse_snoc. unfold Legacy.find in *. simpl.
  destruct (String.eqb (x e) k) eqn:E.
  - apply String.eqb_eq in E as <-. by rewrite lookup_insert_eq.
  - apply String.eqb_neq in E. by rewrite lookup_insert_ne.
Qed.

Lemma find_Some (matrix : list entry) (k : string) (e : entry) :
  Legacy.find matrix k = Some e -> e ∈ matrix /\ x e = k.
Proof.
  unfold Legacy.find. intros [Hin E]%find_some.
  apply String.eqb_eq in E. by apply list_elem_of_In in Hin.
Qed.

Lemma find_None (matrix : list entry) (k : string) (e : entry) :
  Legacy.find matrix k = None -> e ∈ matrix -> x e <> k.
Proof.
  unfold Legacy.find. intros Hnone Hin%list_elem_of_In.
  apply (find_none _ _ Hnone) in Hin. by apply String.eqb_neq in Hin.
Qed.

Lemma NoDup_keys_eq (matrix : list entry) (e e' : entry) :
  NoDup (x <$> matrix) -> e ∈ matrix -> e' ∈ matrix -> x e = x e' -> e = e'.
Proof.
  induction matrix as [|a matrix IH]; [by intros _ ?%elem_of_nil|].
  rewrite fmap_cons. intros [Hfresh Hnd]%NoDup_cons.
  intros [->|Hin]%elem_of_cons [->|Hin']%elem_of_cons Hx; auto.
  - exfalso. apply Hfresh. rewrite Hx. by apply list_elem_of_fmap_2.
  - exfalso. apply Hfresh. rewrite <- Hx. by apply list_elem_of_fmap_2.
Qed.

(** With distinct keys the map holds the count of an entry under its key,
    wherever the entry stands in the array. *)
Lemma convertJSONMatrixIntoMap_NoDup (matrix : list entry) (k : string) (v : float) :
  NoDup (x <$> matrix) ->
  convertJSONMatrixIntoMap matrix !! k = Some v
  <-> exists e, e ∈ matrix /\ x e = k /\ y e = v.
Proof.
  intros Hnd. rewrite convertJSONMatrixIntoMap_find. split.
  - destruct (Legacy.find (reverse matrix) k) as [e|] eqn:E; [|done].
    intros [= <-]. apply find_Some in E as [Hin Hx]. exists e.
    by rewrite elem_of_reverse in Hin.
  - intros (e & Hin & Hx & Hy).
    destruct (Legacy.find (reverse matrix) k) as [e'|] eqn:E.
    + apply find_Some in E as [Hin' Hx']. rewrite elem_of_reverse in Hin'.
      assert (e = e') as <- by (apply (NoDup_keys_eq matrix); congruence).
      simpl. by rewrite Hy.
    + exfalso. apply (find_None _ _ e E); [by rewrite elem_of_reverse|done].
Qed.

Lemma convertJSONMatrixIntoMap_Permutation (matrix matrix' : list entry) :
  NoDup (x <$> matrix) -> matrix ≡ₚ matrix' ->
  convertJSONMatrixIntoMap matrix = convertJSONMatrixIntoMap matrix'.
Proof.
  intros Hnd Hperm.
  assert (Hnd' : NoDup (x <$> matrix')) by by rewrite <- Hperm.
  apply map_eq. intros k. apply option_eq. intros v.
  rewrite !convertJSONMatrixIntoMap_NoDup by done.
  by setoid_rewrite Hperm.
Qed.

Lemma assignScore_map (test : value) (matrix matrix' : list entry) (useCache : bool) :
  convertJSONMatrixIntoMap matrix = convertJSONMatrixIntoMap matrix' ->
  assignScore test matrix useCache = assignScore test matrix' useCache.
Proof. unfold assignScore. by intros ->. Qed.

Lemma toEntry_keys (l : list (string * nat)) : x <$> (map toEntry l) = l.*1.
Proof.
  induction l as [|[k n] l IH]; [done|].
  cbn [map]. rewrite !fmap_cons. cbn [toEntry x fst]. by rewrite IH.
Qed.

End MatrixMapFacts.

(** X14: when a key stands more than once in a matrix, scoring uses the count
    of the last entry with that key; the earlier revision, which searches
    the array with find, uses the first. *)
Theorem duplicate_key_last_wins (matrix later : list entry) (e : entry) :
  Forall (fun e' => x e' <> x e) later ->
  convertJSONMatrixIntoMap (matrix ++ e :: later)%list !! x e = Some (y e)
  /\ Legacy.find (later ++ e :: matrix)%list (x e) = Some e.
Proof.
  intros Hlater. split.
  - induction later as [|e' later IH] using rev_ind.
    + rewrite convertJSONMatrixIntoMap_snoc. apply lookup_insert_eq.
    + apply Forall_app in Hlater as [Hlater Hne]. rewrite Forall_singleton in Hne.
      replace (matrix ++ e :: later ++ [e'])%list
        with ((matrix ++ e :: later) ++ [e'])%list by by rewrite <- app_assoc.
      rewrite convertJSONMatrixIntoMap_snoc, lookup_insert_ne by done. by apply IH.
  - unfold Legacy.find. induction Hlater as [|e' later Hne _ IH]; simpl.
    + by rewrite String.eqb_refl.
    + apply String.eqb_neq in Hne. by rewrite Hne.
Qed.

Lemma duplicate_key_last_wins_witness :
  convertJSONMatrixIntoMap [Entry "ab" 3; Entry "cd" 1; Entry "ab" 7; Entry "ef" 2] !! "ab"
  = Some 7%float.
Proof.
  refine (proj1 (duplicate_key_last_wins [Entry "ab" 3; Entry "cd" 1] [Entry "ef" 2]
                   (Entry "ab" 7) _)).
  repeat constructor. discriminate.
Defined.

(** X15: the order of the entries of a matrix with distinct keys has no
    effect on a score.  In particular the sort that train applies to the
    table changes no score: the sorted table scores every text as the table
    in the order of first observation does. *)
Theorem matrix_order_irrelevant (test : value) (matrix matrix' : list entry) (useCache : bool) :
  NoDup (x <$> matrix) -> matrix ≡ₚ matrix' ->
  assignScore test matrix useCache = assignScore test matrix' useCache.
Proof.
  intros Hnd Hperm. by apply assignScore_map, convertJSONMatrixIntoMap_Permutation.
Qed.

Lemma matrix_order_irrelevant_witness :
  assignScore (VString "ab cx") [Entry " c" 1; Entry "ab" 3; Entry "b " 5] true
  = assignScore (VString "ab cx") sampleMatrix true.
Proof.
  apply matrix_order_irrelevant.
  - by apply (bool_decide_unpack _).
  - unfold sampleMatrix. apply Permutation_cons_app with (l1 := [Entry "ab" 3; Entry "b " 5]) (l2 := []).
    done.
Defined.

Section SortFacts.

Local Open Scope list_scope.

Lemma insertByHits_sorted (a : string * nat) (l : list (string * nat)) :
  StronglySorted byHits l -> StronglySorted byHits (insertByHits a l).
Proof.
  induction 1 as [|b l Hsorted IH Hb]; simpl.
  - repeat constructor.
  - destruct (a.2 <? b.2)%nat eqn:E.
    + apply Nat.ltb_lt in E. constructor; [done|].
      rewrite insertByHits_Permutation. constructor; [unfold byHits; lia|done].
    + apply Nat.ltb_ge in E. constructor; [by constructor|].
      constructor; [done|].
      eapply Forall_impl; [exact Hb|]. unfold byHits. intros c Hc. lia.
Qed.

Lemma sortByHits_sorted (l : list (string * nat)) : StronglySorted byHits (sortByHits l).
Proof.
  induction l as [|a l IH]; simpl; [constructor|]. by apply insertByHits_sorted.
Qed.

End SortFacts.

(** X16: the table train builds is in descending order of hits, it holds the
    entries of the loop and no other, and the sort changes no score: the
    sorted table scores every text as the table in the order of first
    observation does. *)
Theorem train_sort (s : string) :
  StronglySorted byHits (countPairs s)
  /\ countPairs s ≡ₚ analysis (trainLoop (pairsOf s))
  /\ forall test useCache,
       assignScore test (map toEntry (countPairs s)) useCache
       = assignScore test (map toEntry (analysis (trainLoop (pairsOf s)))) useCache.
Proof.
  split; [apply sortByHits_sorted|]. split; [apply sortByHits_Permutation|].
  intros test useCache. apply assignScore_map, convertJSONMatrixIntoMap_Permutation.
  - rewrite toEntry_keys. apply countPairs_NoDup.
  - unfold countPairs. apply fmap_Permutation, sortByHits_Permutation.
Qed.

(** ** Ill-shaped matrices *)

Section MatrixOutcomeFacts.

Local Open Scope list_scope.

Lemma entryError_outcome (m : value) :
  ~ wellShaped m ->
  entryError m = match m with
                 | VNull => Throw (TypeError "Cannot read properties of null or undefined")
                 | _ => Ok true
                 end.
Proof.
  intros Hm. destruct m as [| | | | | | |props]; try done.
  destruct (entryError (VObject props)) as [[]|e] eqn:E; [done| |].
  - by apply entryError_false in E.
  - unfold entryError in E. simpl in E.
    destruct (negb (isType TString (lookupProp "x" props))
              || negb (stringLength (lookupProp "x" props) =? 2)%nat); [done|].
    by destruct (negb (isType TNumber (lookupProp "y" props))).
Qed.

Lemma someEntryError_outcome (good : list value) (m : value) (rest : list value) :
  Forall wellShaped good -> ~ wellShaped m ->
  someEntryError (good ++ m :: rest)
  = match m with
    | VNull => Throw (TypeError "Cannot read properties of null or undefined")
    | _ => Ok true
    end.
Proof.
  intros Hgood Hm. induction Hgood as [|g good Hg _ IH]; simpl.
  - rewrite (entryError_outcome m Hm). by destruct m.
  - apply entryError_false in Hg. by rewrite Hg.
Qed.

End MatrixOutcomeFacts.

(** X17: what isValidMatrix does with an array depends on its first entry
    that is not well shaped: if that entry is null the call throws a
    TypeError (null passes the typeof test and has no property x), otherwise
    it returns false; isValidModel does the same with the model that holds the
    array. *)
Theorem isValidMatrix_first_bad_entry (good : list value) (m : value) (rest : list value)
    (props : list (string * value)) :
  Forall wellShaped good -> ~ wellShaped m ->
  lookupProp "matrix" props = VArray (good ++ m :: rest)%list ->
  isValidMatrix (VArray (good ++ m :: rest)%list)
  = match m with
    | VNull => Throw (TypeError "Cannot read properties of null or undefined")
    | _ => Ok false
    end
  /\ isValidModel (VObject props) = isValidMatrix (VArray (good ++ m :: rest)%list).
Proof.
  intros Hgood Hm Hprops.
  assert (E : isValidMatrix (VArray (good ++ m :: rest)%list)
              = match m with
                | VNull => Throw (TypeError "Cannot read properties of null or undefined")
                | _ => Ok false
                end).
  { unfold isValidMatrix. rewrite (someEntryError_outcome good m rest Hgood Hm).
    by destruct m. }
  split; [done|]. unfold isValidModel.
  change (notPlainObject (VObject props)) with false. cbn [getProp bind].
  rewrite Hprops, E. by destruct m.
Qed.

Lemma isValidMatrix_first_bad_entry_witness :
  isValidMatrix (VArray [entryValue (Entry "ab" 1); VNull; VString "cd"])
  = Throw (TypeError "Cannot read properties of null or undefined")
  /\ isValidMatrix (VArray [entryValue (Entry "ab" 1); VString "cd"; VNull]) = Ok false.
Proof.
  assert (Hgood : Forall wellShaped [entryValue (Entry "ab" 1)]).
  { constructor; [|constructor]. by apply wellShaped_entryValue. }
  split.
  - refine (proj1 (isValidMatrix_first_bad_entry [entryValue (Entry "ab" 1)] VNull
                     [VString "cd"] [("matrix", _)] Hgood _ eq_refl)).
    by intros (props & s & n & [=] & _).
  - refine (proj1 (isValidMatrix_first_bad_entry [entryValue (Entry "ab" 1)] (VString "cd")
                     [VNull] [("matrix", _)] Hgood _ eq_refl)).
    by intros (props & s & n & [=] & _).
Defined.

(** ** Training on any corpus value *)


(** ** The two revisions of assignScore *)

Section RevisionFacts.

Local Open Scope list_scope.

Lemma legacy_uncached_loop (matrix : list entry) (pairs : list string)
    (g : option Legacy.cacheObject) (count : nat) (total : float) :
  Legacy.scoreLoop false matrix pairs (Legacy.ScoreState g count total)
  = (Ok (PrimFloat.div (fold_left (legacyAdd matrix) pairs total)
                       (Num.ofNat (count + length pairs))), g).
Proof.
  revert count total. induction pairs as [|pair pairs IH]; intros count total; simpl.
  - by rewrite Nat.add_0_r.
  - rewrite IH.
    by replace (S count + length pairs) with (count + S (length pairs)) by lia.
Qed.

Lemma legacy_cached_loop (matrix : list entry) (pairs : list string)
    (cache : Legacy.cacheObject) (count : nat) (total : float) :
  cacheOf matrix cache ->
  (Legacy.scoreLoop true matrix pairs (Legacy.ScoreState (Some cache) count total)).1
  = Ok (PrimFloat.div (fold_left (legacyAdd matrix) pairs total)
                      (Num.ofNat (count + length pairs))).
Proof.
  revert cache count total.
  induction pairs as [|pair pairs IH]; intros cache count total Hcache.
  - simpl. by rewrite Nat.add_0_r.
  - cbn [Legacy.scoreLoop length fold_left]. unfold Legacy.scoreStep.
    cbn [Legacy.binding Legacy.pairCount Legacy.totalScore].
    replace (count + S (length pairs)) with (S count + length pairs) by lia.
    assert (Hinsert : cacheOf matrix (<[pair := Legacy.find matrix pair]> cache)).
    { unfold cacheOf, Legacy.cacheObject in *. intros p e.
      destruct (decide (pair = p)) as [<-|Hne].
      - rewrite lookup_insert_eq. by intros [= ->].
      - rewrite lookup_insert_ne by done. apply Hcache. }
    destruct (cache !! pair) as [[cached|]|] eqn:E; cbn [bind fst snd].
    + rewrite IH by done.
      replace (legacyAdd matrix total pair) with (PrimFloat.add total (y cached)); [done|].
      unfold legacyAdd. by rewrite (Hcache _ _ E).
    + by rewrite IH.
    + by rewrite IH.
Qed.

Lemma find_map (matrix : list entry) (pair : string) :
  NoDup (x <$> matrix) ->
  convertJSONMatrixIntoMap matrix !! pair = y <$> Legacy.find matrix pair.
Proof.
  intros Hnd. apply option_eq. intros v.
  rewrite convertJSONMatrixIntoMap_NoDup by done. split.
  - intros (e & Hin & Hx & Hy).
    destruct (Legacy.find matrix pair) as [e'|] eqn:E.
    + apply find_Some in E as [Hin' Hx'].
      assert (e = e') as <- by (apply (NoDup_keys_eq matrix); congruence).
      simpl. by rewrite Hy.
    + exfalso. by apply (find_None _ _ e E).
  - destruct (Legacy.find matrix pair) as [e|] eqn:E; [|done].
    intros [= <-]. apply find_Some in E as [Hin Hx]. by exists e.
Qed.

Lemma legacy_total (matrix : list entry) (pairs : list string) (total : float) :
  NoDup (x <$> matrix) ->
  Forall (fun e => Num.truthy (y e) = true) matrix ->
  fold_left (legacyAdd matrix) pairs total
  = fold_left (fun total pair => addFound total (convertJSONMatrixIntoMap matrix !! pair))
              pairs total.
Proof.
  intros Hnd Htruthy. revert total.
  induction pairs as [|pair pairs IH]; intros total; [done|].
  simpl. rewrite IH. f_equal. unfold legacyAdd. rewrite find_map by done.
  destruct (Legacy.find matrix pair) as [e|] eqn:E; [|done]. simpl.
  apply find_Some in E as [Hin _]. rewrite Forall_forall in Htruthy.
  by rewrite (Htruthy e Hin).
Qed.

End RevisionFacts.

(** X19: in the earlier revision a cached call that starts from a cache
    object without entries returns what the uncached call returns: what the
    call itself memoises never changes its result.  The results differ only
    through what another call has left in the cache. *)
Theorem legacy_fresh_cache_transparent (g : option Legacy.cacheObject) (test : string)
    (matrix : list entry) :
  (Legacy.assignScore (Some ∅) test matrix true).1
  = (Legacy.assignScore g test matrix false).1.
Proof.
  unfold Legacy.assignScore. rewrite legacy_uncached_loop, legacy_cached_loop; [done|].
  unfold cacheOf, Legacy.cacheObject. intros pair e. by rewrite lookup_empty.
Qed.

(** X20: on a matrix with distinct keys and truthy counts, as train builds
    them, the uncached score of the earlier revision is the score of the
    current revision; the revisions part only on a key that stands twice
    (first entry against last) and on a count that is 0 or NaN (added against
    skipped). *)
Theorem revisions_agree (g : option Legacy.cacheObject) (test : string)
    (matrix : list entry) (useCache : bool) :
  NoDup (x <$> matrix) ->
  Forall (fun e => Num.truthy (y e) = true) matrix ->
  (Legacy.assignScore g test matrix false).1 = assignScore (VString test) matrix useCache.
Proof.
  intros Hnd Htruthy. unfold Legacy.assignScore, assignScore.
  rewrite legacy_uncached_loop, sanitizeText_string. simpl.
  destruct (scoreLoop_spec useCache (convertJSONMatrixIntoMap matrix)
              (pairsOf (JS.replaceChar JS.LF JS.SP (sanitizeString test)))) as [-> ->].
  by rewrite legacy_total.
Qed.

Lemma revisions_agree_witness :
  (Legacy.assignScore None "ab cx" sampleMatrix false).1
  = assignScore (VString "ab cx") sampleMatrix true.
Proof.
  apply revisions_agree.
  - by apply (bool_decide_unpack _).
  - repeat constructor.
Defined.

(** ** The per-call cache *)

(** X21: a cached call of assignScore returns what the uncached call
    returns, on every text and every matrix, duplicate keys and falsy counts
    included; the cache of a call only ever holds what the matrix map holds,
    and an uncached call leaves it empty. *)
Theorem score_cache_transparent (test : value) (matrix : list entry) (pairs : list string) :
  assignScore test matrix true = assignScore test matrix false
  /\ modelCache (scoreLoop true (convertJSONMatrixIntoMap matrix) pairs)
     ⊆ convertJSONMatrixIntoMap matrix
  /\ modelCache (scoreLoop false (convertJSONMatrixIntoMap matrix) pairs) = ∅.
Proof.
  split; [apply assignScore_cache_transparent|]. split.
  - unfold scoreLoop.
    assert (H : forall st, modelCache st ⊆ convertJSONMatrixIntoMap matrix ->
              modelCache (fold_left (scoreStep true (convertJSONMatrixIntoMap matrix))
                            pairs st) ⊆ convertJSONMatrixIntoMap matrix).
    { induction pairs as [|pair pairs IH]; intros st Hst; [done|].
      simpl. apply IH. by apply scoreStep_spec. }
    apply H. apply map_empty_subseteq.
  - unfold scoreLoop.
    assert (H : forall st, modelCache st = ∅ ->
              modelCache (fold_left (scoreStep false (convertJSONMatrixIntoMap matrix))
                            pairs st) = ∅).
    { induction pairs as [|pair pairs IH]; intros st Hst; [done|].
      simpl. apply IH. unfold scoreStep. simpl.
      by destruct (convertJSONMatrixIntoMap matrix !! pair). }
    by apply H.
Qed.

(** ** detect and the public score *)

(** X22: detect answers whether the score that the detector's assignScore
    returns for the text is at most what the configured threshold function
    returns for the configured model; it throws exactly when that assignScore
    throws. *)
Theorem detect_is_score_below_threshold (config : configuration) (test : value) :
  testConfig config = Ok tt ->
  exists m f,
    parseModel (lookupProp "model" config) = Some m
    /\ lookupProp "thresholdFn" config = VFunction f
    /\ Detector.detect config test VNull
       = (let* score := Detector.assignScore config test VUndefined in
          Ok (PrimFloat.leb score (f m))).
Proof.
  intros Hconfig.
  destruct (detect_spec config test VNull Hconfig) as (m & f & b & Hm & Hf & Hb & ->);
    [done|].
  simpl in Hm. exists m, f. split; [done|]. split; [done|].
  destruct (parseModel_matrix _ _ Hm) as (props & Hprops & Hmatrix).
  unfold Detector.assignScore. cbn [truthy bind]. rewrite Hprops. cbn [getProp bind].
  by rewrite Hmatrix, Hb.
Qed.

Lemma detect_is_score_below_threshold_witness :
  Detector.assignScore sampleConfig (VString "ab cx") VUndefined = Ok 2.25%float
  /\ calculateThreshold sampleModel = 1.5%float
  /\ Detector.detect sampleConfig (VString "ab cx") VNull = Ok false.
Proof.
  destruct (detect_is_score_below_threshold sampleConfig (VString "ab cx") eq_refl)
    as (m & f & Hm & Hf & ->).
  injection Hm as <-. injection Hf as <-.
  split; [reflexivity|]. split; reflexivity.
Defined.

(** ** Line sets *)

Section LineFacts.

Import JS.

Lemma trimStart_clean s : startsClean (trimStart s).
Proof.
  induction s as [|c s IH]; [done|]. simpl.
  by destruct (isWhiteSpace c) eqn:E.
Qed.

Lemma trimStart_id s : startsClean s -> trimStart s = s.
Proof. destruct s as [|c s]; [done|]. simpl. by intros ->. Qed.

Lemma trimEnd_clean s : startsClean s -> startsClean (trimEnd s).
Proof.
  destruct s as [|c s]; [done|]. simpl. intros Hc.
  destruct (trimEnd s); [by rewrite Hc|done].
Qed.

Lemma trimEnd_idempotent s : trimEnd (trimEnd s) = trimEnd s.
Proof.
  induction s as [|c s IH]; [done|]. simpl.
  destruct (trimEnd s) as [|c' t'] eqn:E.
  - destruct (isWhiteSpace c) eqn:Ec; [done|]. simpl. by rewrite Ec.
  - change (trimEnd (String c (String c' t')))
      with (match trimEnd (String c' t') with
            | EmptyString => if isWhiteSpace c then EmptyString else String c EmptyString
            | t'' => String c t''
            end).
    by rewrite IH.
Qed.

Lemma trim_idempotent s : trim (trim s) = trim s.
Proof.
  unfold trim. rewrite (trimStart_id (trimEnd (trimStart s))).
  - apply trimEnd_idempotent.
  - apply trimEnd_clean, trimStart_clean.
Qed.

Lemma scoreLines_trim (lines : list string) (matrix : list entry) :
  scoreLines (map trim lines) matrix = scoreLines lines matrix.
Proof.
  unfold scoreLines. f_equal.
  induction lines as [|line lines IH]; [done|].
  simpl. by rewrite trim_idempotent, IH.
Qed.

End LineFacts.

(** X23: a line set given as one newline-delimited string trains the model
    that the array of its lines trains: train splits the string at the line
    feeds, and the trimming it applies to the pieces is the one that
    scoreLines applies to every line anyway. *)
Theorem train_text_lines (sample : value) (good bad : string) :
  train sample (LinesText good) (LinesText bad)
  = train sample (LinesArray (JS.splitOn JS.LF good)) (LinesArray (JS.splitOn JS.LF bad)).
Proof.
  unfold train. destruct (sanitizeText sample) as [s|e]; [|done].
  cbn [bind toLines]. by rewrite !scoreLines_trim.
Qed.
